(** * The profile page of the sports-betting front end

    A shallow embedding of [src/app/profile/page.tsx]: the Add-Funds dialog
    ([AddFundsModal.handleSubmit]), the profile data loader
    ([fetchUserData]), the balance update ([handleAddFunds]) and the part of
    the render function that decides what is shown.

    - JavaScript numbers are IEEE binary64 values: Rocq's primitive [float].
    - A Firestore collection is a finite map from document paths to
      documents; [doc] builds the path from an id and refuses the ids the
      SDK refuses.  A [Timestamp] has seconds and nanoseconds.
    - Asynchronous handlers are functions in a state-and-exception monad;
      a [try]/[catch]/[finally] block is a combinator of that monad.  A
      handler is followed through awaits that settle: each awaited request
      or callback resolves or rejects.
    - React state is a record; a setter writes one field. *)

From Stdlib Require Import ZArith Floats Ascii String Sorted Permutation Lia.
From stdpp Require Import gmap strings list.

Local Open Scope string_scope.
Local Open Scope list_scope.

(** ** The JavaScript values and built-ins the page relies on *)

Module JS.

(** A JavaScript [number]. *)
Abbreviation number := float.

(** [isNaN(x)] on a number. *)
Definition isNaN (x : number) : bool := PrimFloat.is_nan x.

(** Truthiness of a number: [0], [-0] and [NaN] are falsy. *)
Definition truthy (x : number) : bool :=
  negb (isNaN x) && negb (PrimFloat.eqb x 0%float).

(** [x || 0] where [x] is a number field that may be [undefined]. *)
Definition orZero (x : option number) : number :=
  match x with
  | Some v => if truthy v then v else 0%float
  | None => 0%float
  end.

(** [xs || []] where [xs] is an array field that may be [undefined]. *)
Definition orEmpty {A : Type} (xs : option (list A)) : list A :=
  match xs with
  | Some l => l
  | None => []
  end.

(** *** Integers and numbers *)

(** The number nearest to an integer (exact below 2^53 in magnitude). *)
Definition ofZ (z : Z) : number :=
  SF2Prim (binary_normalize prec emax z 0 false).

(** The integer part of a finite number, truncated toward zero; 0 for a
    number that is not finite. *)
Definition toInteger (x : number) : Z :=
  match Prim2SF x with
  | S754_finite negative m e =>
      let magnitude :=
        if (0 <=? e)%Z then (Zpos m * 2 ^ e)%Z
        else (Zpos m / 2 ^ (- e))%Z in
      if negative then (- magnitude)%Z else magnitude
  | _ => 0%Z
  end.

(** *** [parseFloat]

    The built-in reads the longest prefix of the trimmed text that is a
    [StrDecimalLiteral] and returns the binary64 value nearest to it, or
    [NaN] when there is no such prefix.  A text is held as its UTF-8
    bytes. *)

(** The white space and line terminators of one byte: space, and the
    characters from TAB to CR. *)
Definition isOneByteWhiteSpace (c : ascii) : bool :=
  let n := N_of_ascii c in
  (N.eqb n 32 || (N.leb 9 n && N.leb n 13))%bool.

(** The number of bytes of the white space or line terminator a text
    starts with, 0 when it starts with none: one byte as above, two for
    U+00A0, three for U+1680, U+2000 to U+200A, U+2028, U+2029, U+202F,
    U+205F, U+3000 and U+FEFF. *)
Definition whiteSpaceWidth (s : string) : nat :=
  match s with
  | String c1 rest =>
      if isOneByteWhiteSpace c1 then 1%nat
      else
        match N_of_ascii c1, rest with
        | 194%N, String c2 _ =>
            if N.eqb (N_of_ascii c2) 160 then 2%nat else 0%nat
        | 225%N, String c2 (String c3 _) =>
            if (N.eqb (N_of_ascii c2) 154 && N.eqb (N_of_ascii c3) 128)%bool
            then 3%nat else 0%nat
        | 226%N, String c2 (String c3 _) =>
            let n2 := N_of_ascii c2 in
            let n3 := N_of_ascii c3 in
            if ((N.eqb n2 128
                 && ((N.leb 128 n3 && N.leb n3 138)
                     || N.eqb n3 168 || N.eqb n3 169 || N.eqb n3 175))
                || (N.eqb n2 129 && N.eqb n3 159))%bool
            then 3%nat else 0%nat
        | 227%N, String c2 (String c3 _) =>
            if (N.eqb (N_of_ascii c2) 128 && N.eqb (N_of_ascii c3) 128)%bool
            then 3%nat else 0%nat
        | 239%N, String c2 (String c3 _) =>
            if (N.eqb (N_of_ascii c2) 187 && N.eqb (N_of_ascii c3) 191)%bool
            then 3%nat else 0%nat
        | _, _ => 0%nat
        end
  | EmptyString => 0%nat
  end.

Fixpoint dropBytes (n : nat) (s : string) : string :=
  match n, s with
  | S n', String _ rest => dropBytes n' rest
  | _, _ => s
  end.

(** Strips white space, one character for each unit of [fuel]. *)
Fixpoint trimStartFrom (fuel : nat) (s : string) : string :=
  match fuel with
  | O => s
  | S fuel' =>
      match whiteSpaceWidth s with
      | O => s
      | width => trimStartFrom fuel' (dropBytes width s)
      end
  end.

(** [TrimString(text, start)]; a text has at most as many characters as
    bytes. *)
Definition trimStart (s : string) : string :=
  trimStartFrom (String.length s) s.

Definition digitValue (c : ascii) : option Z :=
  let n := Z.of_N (N_of_ascii c) in
  if (Z.leb 48 n && Z.leb n 57)%bool then Some (n - 48)%Z else None.

(** Reads a run of decimal digits, folding them into [acc]; returns the
    folded value, the number of digits read and the rest of the text. *)
Fixpoint readDigits (s : string) (acc : Z) (n : Z) : Z * Z * string :=
  match s with
  | String c s' =>
      match digitValue c with
      | Some d => readDigits s' (10 * acc + d)%Z (n + 1)%Z
      | None => (acc, n, s)
      end
  | EmptyString => (acc, n, s)
  end.

Definition readSign (s : string) : bool * string :=
  match s with
  | String "-" s' => (true, s')
  | String "+" s' => (false, s')
  | _ => (false, s)
  end.

(** An exponent part [e+ddd] or [e-ddd]; without a digit after the [e]
    nothing is consumed and the exponent is 0. *)
Definition readExponent (s : string) : Z :=
  match s with
  | String c s' =>
      if (Ascii.eqb c "e" || Ascii.eqb c "E")%bool then
        let '(neg, s'') := readSign s' in
        let '(v, n, _) := readDigits s'' 0%Z 0%Z in
        if (n =? 0)%Z then 0%Z else if neg then (- v)%Z else v
      else 0%Z
  | EmptyString => 0%Z
  end.

(** The binary64 value nearest to [(-1)^neg * m * 10^e] (ties to even). *)
Definition decimalToNumber (neg : bool) (m : Z) (e : Z) : number :=
  match m with
  | Zpos p =>
      SF2Prim
        (if (0 <=? e)%Z
         then binary_normalize prec emax
                (if neg then - (m * 10 ^ e) else m * 10 ^ e)%Z 0 false
         else
           let '(q, e', l) :=
             SFdiv_core_binary prec emax m 0 (10 ^ (- e))%Z 0 in
           binary_round_aux prec emax neg q e' l)
  | _ => if neg then PrimFloat.neg_zero else PrimFloat.zero
  end.

Definition parseFloat (input : string) : number :=
  let '(neg, s1) := readSign (trimStart input) in
  if String.prefix "Infinity" s1
  then (if neg then PrimFloat.neg_infinity else PrimFloat.infinity)
  else
    let '(ip, ni, s2) := readDigits s1 0%Z 0%Z in
    let '(m, nf, s3) :=
      match s2 with
      | String "." s' => readDigits s' ip 0%Z
      | _ => (ip, 0%Z, s2)
      end in
    if (ni + nf =? 0)%Z then PrimFloat.nan
    else decimalToNumber neg m (readExponent s3 - nf).

(** *** [Array.prototype.sort]

    The built-in is a stable sort: [a] is placed before [b] when
    [compareFn a b <= 0], and elements that compare equal keep their
    order.  A stable insertion sort computes the same array. *)

Section Sort.
Context {A : Type} (compareFn : A -> A -> Z).

Fixpoint insertSorted (x : A) (l : list A) : list A :=
  match l with
  | [] => [x]
  | y :: l' =>
      if (compareFn x y <=? 0)%Z then x :: y :: l'
      else y :: insertSorted x l'
  end.

Fixpoint sort (l : list A) : list A :=
  match l with
  | [] => []
  | x :: l' => insertSorted x (sort l')
  end.
End Sort.

End JS.

(** ** Asynchronous code: state and rejection *)

(** What a handler can throw: the error [handleAddFunds] constructs, or the
    error of a request to the backend, for the document at a path. *)
Inductive Err : Type :=
| UserNotFound
| FirestoreError (path : string * string).

(** How an [async] function ends when it settles. *)
Inductive Outcome (A : Type) : Type :=
| Resolved (a : A)
| Rejected (e : Err).
Arguments Resolved {A} a.
Arguments Rejected {A} e.

(** An [async] function over the mutable state [S], run until it
    settles. *)
Definition Async (S A : Type) : Type := S -> Outcome A * S.

#[global] Instance Async_ret {S : Type} : MRet (Async S) :=
  fun A a s => (Resolved a, s).

#[global] Instance Async_bind {S : Type} : MBind (Async S) :=
  fun A B k m s =>
    match m s with
    | (Resolved a, s') => k a s'
    | (Rejected e, s') => (Rejected e, s')
    end.

Definition throw {S A : Type} (e : Err) : Async S A :=
  fun s => (Rejected e, s).

Definition gets {S A : Type} (f : S -> A) : Async S A :=
  fun s => (Resolved (f s), s).

Definition modify {S : Type} (f : S -> S) : Async S unit :=
  fun s => (Resolved tt, f s).

(** [try { body } catch (e) { handler e }] *)
Definition tryCatch {S A : Type}
    (body : Async S A) (handler : Err -> Async S A) : Async S A :=
  fun s =>
    match body s with
    | (Resolved a, s') => (Resolved a, s')
    | (Rejected e, s') => handler e s'
    end.

(** [try { body } finally { cleanup }]: the cleanup runs however the body
    ends, and the body's outcome is kept unless the cleanup throws. *)
Definition tryFinally {S A : Type}
    (body : Async S A) (cleanup : Async S unit) : Async S A :=
  fun s =>
    let '(r, s') := body s in
    match cleanup s' with
    | (Resolved _, s'') => (r, s'')
    | (Rejected e, s'') => (Rejected e, s'')
    end.

(** Runs a handler of an inner component state inside a larger state. *)
Definition zoom {S T A : Type}
    (get : T -> S) (set : S -> T -> T) (m : Async S A) : Async T A :=
  fun t => let '(r, s') := m (get t) in (r, set s' t).

(** ** The documents of the backend *)

Module Firestore.

(** A JavaScript [Date], by its time value in milliseconds. *)
Record Date : Type := { getTime : Z }.

(** A Firestore [Timestamp]: seconds since the epoch and the nanoseconds
    of the second, which its constructor keeps within
    [-62135596800 <= seconds < 253402300800] and
    [0 <= nanoseconds < 1000000000]. *)
Record Timestamp : Type := { seconds : Z; nanoseconds : Z }.

(** [toMillis()]: [this.seconds * 1000 + this.nanoseconds / 1e6], a number
    that may have a fraction. *)
Definition toMillis (ts : Timestamp) : JS.number :=
  PrimFloat.add
    (PrimFloat.mul (JS.ofZ (seconds ts)) 1000%float)
    (PrimFloat.div (JS.ofZ (nanoseconds ts)) 1000000%float).

(** [toDate()]: [new Date(this.toMillis())].  The constructor of [Date]
    keeps the integer part of the number; within the bounds of a
    [Timestamp] the date is valid. *)
Definition toDate (ts : Timestamp) : Date :=
  {| getTime := JS.toInteger (toMillis ts) |}.

End Firestore.

(** [Event], from [@/types/events]: the fields the page reads. *)
Module Event.
Record Team : Type := { full_name : string; abbreviation : string }.
Record t : Type := { home_team : Team; visitor_team : Team }.
End Event.

Inductive Side : Type := home | visitor.

(** The data of a document of [trades]: [Omit<Trade, 'id'>] without the
    derived [event]. *)
Module TradeDoc.
Record t : Type := {
  amount : JS.number;
  expectedPayout : JS.number;
  createdAt : Firestore.Timestamp;
  eventId : string;
  selectedTeam : Side;
  status : string;
  userId : string
}.
End TradeDoc.

(** [interface Trade] *)
Module Trade.
Record t : Type := {
  id : string;
  amount : JS.number;
  expectedPayout : JS.number;
  createdAt : Firestore.Timestamp;
  eventId : string;
  selectedTeam : Side;
  status : string;
  userId : string;
  event : option Event.t
}.
End Trade.

(** [interface UserData]; either field may be missing from the document. *)
Module UserData.
Record t : Type := {
  trades : option (list string);
  walletBalance : option JS.number
}.
End UserData.

(** The signed-in identity supplied by [useAuth]. *)
Record User : Type := {
  uid : string;
  displayName : option string;
  email : option string;
  photoURL : option string
}.

(** ** The backend: three collections and the requests sent to them *)

Module Db.

Inductive Collection : Type -> Type :=
| users : Collection UserData.t
| trades : Collection TradeDoc.t
| events : Collection Event.t.

Definition name {A : Type} (c : Collection A) : string :=
  match c with
  | users => "users"
  | trades => "trades"
  | events => "events"
  end.

(** The documents under each collection, by their path below it. *)
Record t : Type := {
  userDocs : gmap string UserData.t;
  tradeDocs : gmap string TradeDoc.t;
  eventDocs : gmap string Event.t
}.

Definition docs {A : Type} (c : Collection A) (d : t) : gmap string A :=
  match c with
  | users => userDocs d
  | trades => tradeDocs d
  | events => eventDocs d
  end.

Definition setDocs {A : Type} (c : Collection A) (m : gmap string A) (d : t)
  : t :=
  match c in Collection A return gmap string A -> t with
  | users => fun m =>
      {| userDocs := m; tradeDocs := tradeDocs d; eventDocs := eventDocs d |}
  | trades => fun m =>
      {| userDocs := userDocs d; tradeDocs := m; eventDocs := eventDocs d |}
  | events => fun m =>
      {| userDocs := userDocs d; tradeDocs := tradeDocs d; eventDocs := m |}
  end m.

(** A request is a read or a write of the document at a path
    (collection name, path below the collection). *)
Inductive Request : Type :=
| Get (path : string * string)
| Update (path : string * string).

Definition path (r : Request) : string * string :=
  match r with
  | Get p => p
  | Update p => p
  end.

(** *** Document references

    [doc(db, c, id)] reads [id] as a slash-delimited path below the
    collection: the SDK refuses a path that contains [//], drops the empty
    segments (leading and trailing slashes), and refuses the reference
    unless collection and segments together are an even number of
    segments.  An empty id therefore builds no reference. *)

(** The segments of a path, without the empty ones; [current] is the
    segment being read. *)
Fixpoint segmentsFrom (current : string) (s : string) : list string :=
  match s with
  | EmptyString => if String.eqb current "" then [] else [current]
  | String c rest =>
      if Ascii.eqb c "/"
      then
        (if String.eqb current "" then segmentsFrom "" rest
         else current :: segmentsFrom "" rest)
      else segmentsFrom (current ++ String c "")%string rest
  end.

Definition segments (s : string) : list string := segmentsFrom "" s.

Fixpoint hasDoubleSlash (s : string) : bool :=
  match s with
  | String c rest =>
      match rest with
      | String c' _ =>
          if (Ascii.eqb c "/" && Ascii.eqb c' "/")%bool then true
          else hasDoubleSlash rest
      | EmptyString => false
      end
  | EmptyString => false
  end.

(** The path below the collection that [doc(db, c, id)] refers to, or
    [None] when the SDK throws. *)
Definition docPath (id : string) : option (list string) :=
  if hasDoubleSlash id then None
  else
    let below := segments id in
    if Nat.odd (length below) then Some below else None.

(** The key of a document in the maps of [t]: its path below the
    collection, which for a document of the collection itself is its id. *)
Definition key (below : list string) : string := String.concat "/" below.

(** [snapshot.id]: the last segment of the path. *)
Definition docId (below : list string) : string := List.last below "".

End Db.

(** ** The Add-Funds dialog *)

Module AddFundsModal.

(** [useState('')], [useState(false)], [useState('')] *)
Record State : Type := {
  amount : string;
  isLoading : bool;
  error : string
}.

Definition initial : State :=
  {| amount := ""; isLoading := false; error := "" |}.

Definition withAmount (v : string) (m : State) : State :=
  {| amount := v; isLoading := isLoading m; error := error m |}.

Definition withIsLoading (v : bool) (m : State) : State :=
  {| amount := amount m; isLoading := v; error := error m |}.

Definition withError (v : string) (m : State) : State :=
  {| amount := amount m; isLoading := isLoading m; error := v |}.

Section Component.
(** The state of the component that renders the dialog, and the two
    callbacks it passes as props. *)
Context {S : Type}.
Variable onAddFunds : JS.number -> Async S unit.
Variable onClose : Async S unit.

Definition setAmount (v : string) : Async (State * S) unit :=
  modify (fun '(m, s) => (withAmount v m, s)).

Definition setIsLoading (v : bool) : Async (State * S) unit :=
  modify (fun '(m, s) => (withIsLoading v m, s)).

Definition setError (v : string) : Async (State * S) unit :=
  modify (fun '(m, s) => (withError v m, s)).

(** A call of a prop runs in the caller's state. *)
Definition prop {A : Type} (call : Async S A) : Async (State * S) A :=
  zoom snd (fun s '(m, _) => (m, s)) call.

Definition handleSubmit : Async (State * S) unit :=
  _ ← setError "";
  _ ← setIsLoading true;
  amount ← gets (fun '(m, _) => amount m);
  let numAmount := JS.parseFloat amount in
  if (JS.isNaN numAmount || PrimFloat.leb numAmount 0%float)%bool then
    _ ← setError "Please enter a valid amount";
    setIsLoading false
  else
    tryFinally
      (tryCatch
         (_ ← prop (onAddFunds numAmount);
          _ ← prop onClose;
          setAmount "")
         (fun err => setError "Failed to add funds. Please try again."))
      (setIsLoading false).

End Component.

(** *** Observing the calls of the props *)

Inductive Call : Type :=
| AddFundsCalled (amount : JS.number)
| CloseCalled.

(** The callback [call], recording that it was invoked. *)
Definition spy {S A : Type} (c : Call) (call : Async S A)
  : Async (list Call * S) A :=
  fun '(calls, s) => let '(r, s') := call s in (r, (calls ++ [c], s')).

End AddFundsModal.

(** ** The profile page *)

Module Page.

(** The four [useState] cells of [ProfilePage]. *)
Record State : Type := {
  trades : list Trade.t;
  loading : bool;
  walletBalance : JS.number;
  isAddFundsModalOpen : bool
}.

(** The state a freshly mounted page starts from. *)
Definition initial : State :=
  {| trades := []; loading := true; walletBalance := 0%float;
     isAddFundsModalOpen := false |}.

Definition withTrades (v : list Trade.t) (p : State) : State :=
  {| trades := v; loading := loading p; walletBalance := walletBalance p;
     isAddFundsModalOpen := isAddFundsModalOpen p |}.

Definition withLoading (v : bool) (p : State) : State :=
  {| trades := trades p; loading := v; walletBalance := walletBalance p;
     isAddFundsModalOpen := isAddFundsModalOpen p |}.

Definition withWalletBalance (v : JS.number) (p : State) : State :=
  {| trades := trades p; loading := loading p; walletBalance := v;
     isAddFundsModalOpen := isAddFundsModalOpen p |}.

Definition withIsAddFundsModalOpen (v : bool) (p : State) : State :=
  {| trades := trades p; loading := loading p;
     walletBalance := walletBalance p; isAddFundsModalOpen := v |}.

(** What the handlers of the page act on: the page's own state, the
    documents of the backend, and the requests sent so far. *)
Record World : Type := {
  page : State;
  db : Db.t;
  requests : list Db.Request
}.

Definition onPage (f : State -> State) (w : World) : World :=
  {| page := f (page w); db := db w; requests := requests w |}.

Definition onDb (f : Db.t -> Db.t) (w : World) : World :=
  {| page := page w; db := f (db w); requests := requests w |}.

Definition sent (r : Db.Request) (w : World) : World :=
  {| page := page w; db := db w; requests := requests w ++ [r] |}.

Definition setTrades (v : list Trade.t) : Async World unit :=
  modify (onPage (withTrades v)).

Definition setLoading (v : bool) : Async World unit :=
  modify (onPage (withLoading v)).

Definition setWalletBalance (v : JS.number) : Async World unit :=
  modify (onPage (withWalletBalance v)).

Definition setIsAddFundsModalOpen (v : bool) : Async World unit :=
  modify (onPage (withIsAddFundsModalOpen v)).

(** [doc(db, c, id)] for an id read from a document: the path of the
    reference, or the error the SDK throws for an id that builds none.  (The
    reference of a user document is built from the uid of the identity,
    which the identity provider issues non-empty and without a slash, so
    that [doc(db, 'users', user.uid)] is the document with that id.) *)
Definition doc {A : Type} (c : Db.Collection A) (id : string)
  : Async World (list string) :=
  match Db.docPath id with
  | Some below => mret below
  | None => throw (FirestoreError (Db.name c, id))
  end.

Section Network.
(** [outage n] tells whether the [n]-th request sent to the backend (counted
    from 0 over the life of the page) fails. *)
Variable outage : nat -> bool.

(** Sends a request and awaits it: the request is served, or it is
    rejected when the network fails it. *)
Definition send (r : Db.Request) : Async World unit :=
  fun w =>
    if outage (length (requests w))
    then (Rejected (FirestoreError (Db.path r)), sent r w)
    else (Resolved tt, sent r w).

(** [await getDoc(ref)] for the document of [c] with the key [id]: the
    snapshot's data, [None] when [exists()] is false. *)
Definition getDoc {A : Type} (c : Db.Collection A) (id : string)
  : Async World (option A) :=
  _ ← send (Db.Get (Db.name c, id));
  gets (fun w => Db.docs c (db w) !! id).

(** [await updateDoc(doc(db, c, id), fields)]: writes the fields into the
    document; Firestore rejects the update of a document that does not
    exist. *)
Definition updateDoc {A : Type} (c : Db.Collection A) (id : string)
    (fields : A -> A) : Async World unit :=
  _ ← send (Db.Update (Db.name c, id));
  snapshot ← gets (fun w => Db.docs c (db w) !! id);
  match snapshot with
  | Some data =>
      modify
        (onDb (fun d => Db.setDocs c (<[id := fields data]> (Db.docs c d)) d))
  | None => throw (FirestoreError (Db.name c, id))
  end.

(** [{ id: tradeDoc.id, ...tradeData, createdAt: tradeData.createdAt,
      event: eventData }] *)
Definition tradeOf (id : string) (tradeData : TradeDoc.t)
    (eventData : option Event.t) : Trade.t :=
  {| Trade.id := id;
     Trade.amount := TradeDoc.amount tradeData;
     Trade.expectedPayout := TradeDoc.expectedPayout tradeData;
     Trade.createdAt := TradeDoc.createdAt tradeData;
     Trade.eventId := TradeDoc.eventId tradeData;
     Trade.selectedTeam := TradeDoc.selectedTeam tradeData;
     Trade.status := TradeDoc.status tradeData;
     Trade.userId := TradeDoc.userId tradeData;
     Trade.event := eventData |}.

(** The loop [for (const tradeId of userTrades)], pushing onto
    [tradesData]. *)
Fixpoint fetchTrades (userTrades : list string) (tradesData : list Trade.t)
  : Async World (list Trade.t) :=
  match userTrades with
  | [] => mret tradesData
  | tradeId :: rest =>
      tradeRef ← doc Db.trades tradeId;
      tradeDoc ← getDoc Db.trades (Db.key tradeRef);
      match tradeDoc with
      | Some tradeData =>
          eventRef ← doc Db.events (TradeDoc.eventId tradeData);
          eventData ← getDoc Db.events (Db.key eventRef);
          fetchTrades rest
            (tradesData
               ++ [tradeOf (Db.docId tradeRef) tradeData eventData])
      | None => fetchTrades rest tradesData
      end
  end.

(** [(a, b) => b.createdAt.toDate().getTime()
                - a.createdAt.toDate().getTime()] *)
Definition newestFirst (a b : Trade.t) : Z :=
  Firestore.getTime (Firestore.toDate (Trade.createdAt b))
  - Firestore.getTime (Firestore.toDate (Trade.createdAt a)).

(** The body of the effect that runs when [user] changes. *)
Definition fetchUserData (user : option User) : Async World unit :=
  match user with
  | None => setLoading false
  | Some user =>
      tryFinally
        (tryCatch
           (userDoc ← getDoc Db.users (uid user);
            match userDoc with
            | None => setLoading false
            | Some userData =>
                _ ← setWalletBalance
                      (JS.orZero (UserData.walletBalance userData));
                let userTrades := JS.orEmpty (UserData.trades userData) in
                tradesData ← fetchTrades userTrades [];
                setTrades (JS.sort newestFirst tradesData)
            end)
           (fun error => mret tt))
        (setLoading false)
  end.

(** [{ walletBalance: newBalance }] as an update of a user document. *)
Definition walletBalanceField (newBalance : JS.number) (d : UserData.t)
  : UserData.t :=
  {| UserData.trades := UserData.trades d;
     UserData.walletBalance := Some newBalance |}.

(** [handleAddFunds] as a render of the page creates it: the function
    closes over the [user] and the [walletBalance] of that render, and
    adds the amount to that balance whenever it is called. *)
Definition handleAddFundsOf (walletBalance : JS.number) (user : option User)
    (amount : JS.number) : Async World unit :=
  match user with
  | None => throw UserNotFound
  | Some user =>
      tryCatch
        (let newBalance := PrimFloat.add walletBalance amount in
         _ ← updateDoc Db.users (uid user) (walletBalanceField newBalance);
         setWalletBalance newBalance)
        (fun error => throw error)
  end.

(** The [handleAddFunds] of the render of the current state, which is the
    one the dialog on the screen holds. *)
Definition handleAddFunds (user : option User) (amount : JS.number)
  : Async World unit :=
  fun w => handleAddFundsOf (walletBalance (page w)) user amount w.

(** The submit handler of the dialog as the page mounts it:
    [onAddFunds={handleAddFunds}],
    [onClose={() => setIsAddFundsModalOpen(false)}]. *)
Definition submitAddFunds (user : option User)
  : Async (AddFundsModal.State * World) unit :=
  AddFundsModal.handleSubmit (handleAddFunds user)
    (setIsAddFundsModalOpen false).

End Network.

(** *** What the page renders *)

(** The props of a [TeamLogo]. *)
Record TeamLogo : Type := { abbreviation : string; teamName : string }.

Inductive Badge : Type := Yellow | Green | Red.

(** One card of the trade history. *)
Record Card : Type := {
  key : string;
  logo : option TeamLogo;
  teamLabel : string;
  placedAt : Firestore.Timestamp;
  betAmount : JS.number;
  payout : JS.number;
  badge : Badge;
  fixture : option string
}.

Definition selected (side : Side) (e : Event.t) : Event.Team :=
  match side with
  | home => Event.home_team e
  | visitor => Event.visitor_team e
  end.

Definition card (trade : Trade.t) : Card :=
  {| key := Trade.id trade;
     logo :=
       match Trade.event trade with
       | Some e =>
           let team := selected (Trade.selectedTeam trade) e in
           Some {| abbreviation := Event.abbreviation team;
                   teamName := Event.full_name team |}
       | None => None
       end;
     teamLabel :=
       match Trade.event trade with
       | Some e => Event.full_name (selected (Trade.selectedTeam trade) e)
       | None => "Unknown Team"
       end;
     placedAt := Trade.createdAt trade;
     betAmount := Trade.amount trade;
     payout := Trade.expectedPayout trade;
     badge :=
       if String.eqb (Trade.status trade) "pending" then Yellow
       else if String.eqb (Trade.status trade) "won" then Green
       else Red;
     fixture :=
       match Trade.event trade with
       | Some e =>
           Some (Event.full_name (Event.home_team e) ++ " vs "
                 ++ Event.full_name (Event.visitor_team e))%string
       | None => None
       end |}.

(** [trades.filter(t => t.status === 'won').length] and the same for
    ['lost']. *)
Definition wins (trades : list Trade.t) : nat :=
  length (List.filter (fun t => String.eqb (Trade.status t) "won") trades).

Definition losses (trades : list Trade.t) : nat :=
  length (List.filter (fun t => String.eqb (Trade.status t) "lost") trades).

Inductive History : Type :=
| NoTradesYet
| Cards (cards : list Card).

(** The main view. *)
Record Main : Type := {
  tradeRecord : nat * nat;
  availableBalance : JS.number;
  history : History;
  dialogOpen : bool
}.

Inductive View : Type :=
| SignInPrompt
| LoadingSkeleton
| MainView (v : Main).

Definition render (user : option User) (p : State) : View :=
  match user with
  | None => SignInPrompt
  | Some _ =>
      if loading p then LoadingSkeleton
      else
        MainView
          {| tradeRecord := (wins (trades p), losses (trades p));
             availableBalance := walletBalance p;
             history :=
               match trades p with
               | [] => NoTradesYet
               | _ => Cards (map card (trades p))
               end;
             dialogOpen := isAddFundsModalOpen p |}
  end.

End Page.

(** ** Notions the statements are written with *)

Module Spec.

(** The trade document a listed id refers to, if the id builds a
    reference and the document exists. *)
Definition tradeOfId (d : Db.t) (tradeId : string) : option TradeDoc.t :=
  match Db.docPath tradeId with
  | Some below => Db.tradeDocs d !! Db.key below
  | None => None
  end.

(** The event document an event id refers to, likewise. *)
Definition eventOfId (d : Db.t) (eventId : string) : option Event.t :=
  match Db.docPath eventId with
  | Some below => Db.eventDocs d !! Db.key below
  | None => None
  end.

(** The id of the document a listed id refers to: the id itself unless it
    has slashes. *)
Definition docIdOf (id : string) : string :=
  match Db.docPath id with
  | Some below => Db.docId below
  | None => id
  end.

(** A trade id resolves when the collection of trades has a document
    for it. *)
Definition resolves (d : Db.t) (tradeId : string) : bool :=
  match tradeOfId d tradeId with
  | Some _ => true
  | None => false
  end.

(** Every reference the loop over the ids has to build can be built: each
    listed id builds one, and so does the event id of each trade document
    found. *)
Fixpoint refsBuilt (d : Db.t) (ids : list string) : bool :=
  match ids with
  | [] => true
  | tradeId :: rest =>
      match Db.docPath tradeId with
      | Some below =>
          match Db.tradeDocs d !! Db.key below with
          | Some tradeData =>
              match Db.docPath (TradeDoc.eventId tradeData) with
              | Some _ => refsBuilt d rest
              | None => false
              end
          | None => refsBuilt d rest
          end
      | None => false
      end
  end.

(** The trade views of the ids that resolve, in the order of the ids, each
    joined with its event when the event document exists. *)
Fixpoint assemble (d : Db.t) (ids : list string) : list Trade.t :=
  match ids with
  | [] => []
  | tradeId :: rest =>
      match tradeOfId d tradeId with
      | Some tradeData =>
          Page.tradeOf (docIdOf tradeId) tradeData
            (eventOfId d (TradeDoc.eventId tradeData))
          :: assemble d rest
      | None => assemble d rest
      end
  end.

(** The millisecond instant a trade was created at. *)
Definition createdMs (t : Trade.t) : Z :=
  Firestore.getTime (Firestore.toDate (Trade.createdAt t)).

(** [a] may stand before [b] in a list ordered by [key], largest first. *)
Definition largestFirst {A : Type} (key : A -> Z) (a b : A) : Prop :=
  (key b <= key a)%Z.

(** [a] may stand before [b] in a list that is newest first by the
    millisecond. *)
Definition notOlder : Trade.t -> Trade.t -> Prop := largestFirst createdMs.

(** [a] was created before [b], by their [createdAt]. *)
Definition createdBefore (a b : Trade.t) : Prop :=
  let s := Firestore.seconds ∘ Trade.createdAt in
  let ns := Firestore.nanoseconds ∘ Trade.createdAt in
  (s a < s b \/ (s a = s b /\ ns a < ns b))%Z.

(** A list in descending order of [createdAt]: no trade stands before one
    that was created later. *)
Definition descendingByCreatedAt (l : list Trade.t) : Prop :=
  StronglySorted (fun a b => ~ createdBefore a b) l.

(** An id of one segment: not empty and without a slash. *)
Fixpoint noSlash (s : string) : bool :=
  match s with
  | EmptyString => true
  | String c rest => (negb (Ascii.eqb c "/") && noSlash rest)%bool
  end.

Definition plain (id : string) : bool :=
  (negb (String.eqb id "") && noSlash id)%bool.

(** How a run of requests that starts in [w] ends.  When it returns, every
    reference was built and every request served.  When it throws, it was
    stopped by the request that failed, which is the last one sent, or by a
    reference that could not be built, after requests that were all
    served.  [built] tells whether every reference of the run can be
    built. *)
Definition servedOrStopped {A : Type} (outage : nat -> bool) (built : bool)
    (w : Page.World) (sent : list Db.Request) (r : Outcome A) : Prop :=
  let first := length (Page.requests w) in
  match r with
  | Resolved _ =>
      built = true
      /\ forall n, first <= n < first + length sent -> outage n = false
  | Rejected _ =>
      (exists k, length sent = S k /\ outage (first + k) = true
         /\ forall n, first <= n < first + k -> outage n = false)
      \/ (built = false
          /\ forall n, first <= n < first + length sent -> outage n = false)
  end.

(** Every request sent between the worlds [w] and [w'] was served. *)
Definition allServed (outage : nat -> bool) (w w' : Page.World) : Prop :=
  forall n : nat,
    length (Page.requests w) <= n < length (Page.requests w') ->
    outage n = false.

(** The number of entries of a list of statuses that are equal to [s]. *)
Definition occurrences (s : string) (statuses : list string) : nat :=
  count_occ string_dec statuses s.

(** The cards of the trade history a view shows. *)
Definition cardsShown (v : Page.View) : list Page.Card :=
  match v with
  | Page.MainView main =>
      match Page.history main with
      | Page.Cards cards => cards
      | Page.NoTradesYet => []
      end
  | _ => []
  end.

(** The amounts [onAddFunds] was called with, in order. *)
Fixpoint amountsPassed (calls : list AddFundsModal.Call) : list JS.number :=
  match calls with
  | [] => []
  | AddFundsModal.AddFundsCalled a :: rest => a :: amountsPassed rest
  | AddFundsModal.CloseCalled :: rest => amountsPassed rest
  end.

(** The amount text passes the dialog's check. *)
Definition validAmount (text : string) : bool :=
  negb (JS.isNaN (JS.parseFloat text)
        || PrimFloat.leb (JS.parseFloat text) 0%float).

(** The dialog with its props observed: each call of a prop is recorded. *)
Definition observedSubmit {S : Type}
    (onAddFunds : JS.number -> Async S unit) (onClose : Async S unit)
  : Async (AddFundsModal.State * (list AddFundsModal.Call * S)) unit :=
  AddFundsModal.handleSubmit
    (fun a => AddFundsModal.spy (AddFundsModal.AddFundsCalled a) (onAddFunds a))
    (AddFundsModal.spy AddFundsModal.CloseCalled onClose).

End Spec.

(** ** A sample backend, used to run the handlers on concrete inputs *)

Module Sample.

Definition alice : User :=
  {| uid := "alice"; displayName := Some "Alice";
     email := Some "alice@example.com"; photoURL := None |}.

Definition lakers : Event.Team :=
  {| Event.full_name := "Los Angeles Lakers"; Event.abbreviation := "LAL" |}.

Definition celtics : Event.Team :=
  {| Event.full_name := "Boston Celtics"; Event.abbreviation := "BOS" |}.

Definition game : Event.t :=
  {| Event.home_team := lakers; Event.visitor_team := celtics |}.

(** The [Timestamp] of a whole millisecond. *)
Definition instant (ms : Z) : Firestore.Timestamp :=
  {| Firestore.seconds := (ms / 1000)%Z;
     Firestore.nanoseconds := (ms mod 1000 * 1000000)%Z |}.

(** The instant [days] days before a fixed time [T]. *)
Definition daysAgo (days : Z) : Z := (1700000000000 - days * 86400000)%Z.

Definition tradeDoc (ms : Z) (eventId status : string) : TradeDoc.t :=
  {| TradeDoc.amount := 10%float;
     TradeDoc.expectedPayout := 19%float;
     TradeDoc.createdAt := instant ms;
     TradeDoc.eventId := eventId;
     TradeDoc.selectedTeam := home;
     TradeDoc.status := status;
     TradeDoc.userId := "alice" |}.

(** Alice holds four trade ids: [t3] was created at [T-3], [t1] at [T-1]
    and [t2] at [T-2]; [ghost] has no trade document, and the event [g0]
    of [t2] has no event document. *)
Definition aliceData : UserData.t :=
  {| UserData.trades := Some ["t3"; "ghost"; "t1"; "t2"];
     UserData.walletBalance := Some 100%float |}.

Definition db : Db.t :=
  {| Db.userDocs := {[ "alice" := aliceData ]};
     Db.tradeDocs :=
       <["t1" := tradeDoc (daysAgo 1) "g1" "won"]>
         (<["t2" := tradeDoc (daysAgo 2) "g0" "lost"]>
            (<["t3" := tradeDoc (daysAgo 3) "g1" "pending"]> ∅));
     Db.eventDocs := {[ "g1" := game ]} |}.

(** The page right after it is mounted. *)
Definition mounted : Page.World :=
  {| Page.page := Page.initial; Page.db := db; Page.requests := [] |}.

(** A network on which every request succeeds. *)
Definition online : nat -> bool := fun _ => false.

(** A network that fails the [n]-th request only. *)
Definition failingAt (n : nat) : nat -> bool := fun k => Nat.eqb k n.

(** The page after Alice's profile was loaded. *)
Definition loaded : Page.World :=
  snd (Page.fetchUserData online (Some alice) mounted).

(** The loaded page with the dialog open and an amount typed in. *)
Definition dialogOpen : Page.World :=
  Page.onPage (Page.withIsAddFundsModalOpen true) loaded.

Definition typed (text : string) : AddFundsModal.State :=
  AddFundsModal.withAmount text AddFundsModal.initial.

(** A trade view with the given status and creation instant. *)
Definition trade (id status : string) (ms : Z) : Trade.t :=
  Page.tradeOf id (tradeDoc ms "g1" status) (Some game).

End Sample.

(** ** The logo of a team *)

Module TeamLogo.

(** [`/logos/${abbreviation}.png`], the address of both the probe and the
    image. *)
Definition logoPath (abbreviation : string) : string :=
  ("/logos/" ++ abbreviation ++ ".png")%string.

(** [<Image src=... alt=... width={32} height={32} />] *)
Record Image : Type := {
  src : string;
  alt : string;
  width : Z;
  height : Z
}.

(** [setImageExists], on the one [useState] cell of the component. *)
Definition setImageExists (v : bool) : Async bool unit :=
  modify (fun _ => v).

(** The promise chain of the effect, for a [fetch] that ends as [response]
    does: resolved with [res.ok], or rejected. *)
Definition probed (response : Outcome bool) : Async bool unit :=
  tryCatch
    (ok ← (fun s => (response, s));
     if negb ok then setImageExists false else mret tt)
    (fun _ => setImageExists false).

Section Assets.
(** How the server answers the request for a path. *)
Variable assets : string -> Outcome bool.

(** The effect, which runs on mount and whenever [abbreviation] changes. *)
Definition effect (abbreviation : string) : Async bool unit :=
  probed (assets (logoPath abbreviation)).

(** The state after the component was mounted with the first abbreviation of
    the list and its prop then took the others in turn. *)
Definition lifecycle (abbreviations : list string) : bool :=
  foldl (fun imageExists a => snd (effect a imageExists)) true abbreviations.

End Assets.

Definition render (props : Page.TeamLogo) (imageExists : bool) : option Image :=
  if negb imageExists then None
  else
    Some {| src := logoPath (Page.abbreviation props);
            alt := (Page.teamName props ++ " logo")%string;
            width := 32; height := 32 |}.

End TeamLogo.

(** ** What the dialog shows, and its two other handlers *)

Module AddFundsView.

Record Form : Type := {
  inputValue : string;
  errorLine : option string;
  submitDisabled : bool;
  submitLabel : string
}.

(** [if (!isOpen) return null], then the form. *)
Definition render (isOpen : bool) (m : AddFundsModal.State) : option Form :=
  if negb isOpen then None
  else
    Some {| inputValue := AddFundsModal.amount m;
            errorLine :=
              if String.eqb (AddFundsModal.error m) "" then None
              else Some (AddFundsModal.error m);
            submitDisabled := AddFundsModal.isLoading m;
            submitLabel :=
              if AddFundsModal.isLoading m then "Adding..." else "Add Funds" |}.

Section Handlers.
Context {S : Type}.
Variable onClose : Async S unit.

(** [onChange={(e) => setAmount(e.target.value)}] *)
Definition handleChange (value : string)
  : Async (AddFundsModal.State * S) unit :=
  AddFundsModal.setAmount value.

(** The Cancel button: [onClick={onClose}]. *)
Definition handleCancel : Async (AddFundsModal.State * S) unit :=
  AddFundsModal.prop onClose.

End Handlers.

(** The "Add Funds" button of the balance card:
    [onClick={() => setIsAddFundsModalOpen(true)}], a handler of the page. *)
Definition openAddFunds : Async (AddFundsModal.State * Page.World) unit :=
  AddFundsModal.prop (Page.setIsAddFundsModalOpen true).

(** The dialog as the page mounts it: in the main view only, with
    [isOpen={isAddFundsModalOpen}]. *)
Definition shown (user : option User) (s : AddFundsModal.State * Page.World)
  : option Form :=
  match Page.render user (Page.page (snd s)) with
  | Page.MainView main => render (Page.dialogOpen main) (fst s)
  | _ => None
  end.

End AddFundsView.

(** ** More notions for statements *)

Module Trace.

(** The requests of the loop over the ids, when every one is served: the
    loop ends at the first reference that cannot be built. *)
Fixpoint tradeRequests (d : Db.t) (ids : list string) : list Db.Request :=
  match ids with
  | [] => []
  | tradeId :: rest =>
      match Db.docPath tradeId with
      | Some tradeRef =>
          Db.Get ("trades", Db.key tradeRef)
          :: match Db.tradeDocs d !! Db.key tradeRef with
             | Some tradeData =>
                 match Db.docPath (TradeDoc.eventId tradeData) with
                 | Some eventRef =>
                     Db.Get ("events", Db.key eventRef) :: tradeRequests d rest
                 | None => []
                 end
             | None => tradeRequests d rest
             end
      | None => []
      end
  end.

(** The requests of a whole cycle for [u], when every one is served. *)
Definition cycleRequests (d : Db.t) (u : User) : list Db.Request :=
  Db.Get ("users", uid u)
  :: match Db.userDocs d !! uid u with
     | Some userData =>
         tradeRequests d (JS.orEmpty (UserData.trades userData))
     | None => []
     end.

Definition isGet (r : Db.Request) : bool :=
  match r with
  | Db.Get _ => true
  | Db.Update _ => false
  end.

(** The card of a trade carries the red badge. *)
Definition isRed (c : Page.Card) : bool :=
  match Page.badge c with
  | Page.Red => true
  | _ => false
  end.

(** A status that is none of the three the page knows. *)
Definition unknownStatus (t : Trade.t) : bool :=
  negb (String.eqb (Trade.status t) "pending"
        || String.eqb (Trade.status t) "won"
        || String.eqb (Trade.status t) "lost").

End Trace.

(** ** More of the sample *)

Module Scenario.


(** A server that has the logo of the Lakers only. *)
Definition assets (path : string) : Outcome bool :=
  if String.eqb path "/logos/LAL.png" then Resolved true
  else if String.eqb path "/logos/BOS.png" then Resolved false
  else Rejected (FirestoreError ("logos", path)).

(** Carol holds three trades; [a] and [c] were created at the same
    instant, [b] a day later. *)
Definition carol : User :=
  {| uid := "carol"; displayName := None; email := None; photoURL := None |}.

Definition carolData : UserData.t :=
  {| UserData.trades := Some ["a"; "b"; "c"];
     UserData.walletBalance := None |}.

Definition tiedDb : Db.t :=
  {| Db.userDocs := {[ "carol" := carolData ]};
     Db.tradeDocs :=
       <["a" := Sample.tradeDoc (Sample.daysAgo 2) "g1" "won"]>
         (<["b" := Sample.tradeDoc (Sample.daysAgo 1) "g1" "lost"]>
            (<["c" := Sample.tradeDoc (Sample.daysAgo 2) "g1" "void"]> ∅));
     Db.eventDocs := {[ "g1" := Sample.game ]} |}.

Definition tiedMounted : Page.World :=
  {| Page.page := Page.initial; Page.db := tiedDb; Page.requests := [] |}.

(** Dan holds two trades: [d1] on the game [g1], and [d2] whose [eventId]
    is the empty string, which names no event document. *)
Definition dan : User :=
  {| uid := "dan"; displayName := None; email := None; photoURL := None |}.

Definition danData : UserData.t :=
  {| UserData.trades := Some ["d1"; "d2"];
     UserData.walletBalance := Some 20%float |}.

Definition danDb : Db.t :=
  {| Db.userDocs := {[ "dan" := danData ]};
     Db.tradeDocs :=
       <["d1" := Sample.tradeDoc (Sample.daysAgo 1) "g1" "won"]>
         (<["d2" := Sample.tradeDoc (Sample.daysAgo 2) "" "lost"]> ∅);
     Db.eventDocs := {[ "g1" := Sample.game ]} |}.

Definition danMounted : Page.World :=
  {| Page.page := Page.initial; Page.db := danDb; Page.requests := [] |}.

(** Erin holds two trades placed within one millisecond: [e1] at
    1700000000 s, and [e2] 400000 ns after it. *)
Definition erin : User :=
  {| uid := "erin"; displayName := None; email := None; photoURL := None |}.

Definition erinData : UserData.t :=
  {| UserData.trades := Some ["e1"; "e2"];
     UserData.walletBalance := None |}.

Definition placedAt (nanoseconds : Z) (status : string) : TradeDoc.t :=
  {| TradeDoc.amount := 10%float;
     TradeDoc.expectedPayout := 19%float;
     TradeDoc.createdAt :=
       {| Firestore.seconds := 1700000000;
          Firestore.nanoseconds := nanoseconds |};
     TradeDoc.eventId := "g1";
     TradeDoc.selectedTeam := home;
     TradeDoc.status := status;
     TradeDoc.userId := "erin" |}.

Definition closeDb : Db.t :=
  {| Db.userDocs := {[ "erin" := erinData ]};
     Db.tradeDocs :=
       <["e1" := placedAt 0 "won"]> (<["e2" := placedAt 400000 "lost"]> ∅);
     Db.eventDocs := {[ "g1" := Sample.game ]} |}.

Definition closeMounted : Page.World :=
  {| Page.page := Page.initial; Page.db := closeDb; Page.requests := [] |}.

End Scenario.

(** ** Tactics that run the handlers *)

Ltac run_async :=
  unfold Spec.observedSubmit, AddFundsModal.handleSubmit,
    AddFundsModal.setError, AddFundsModal.setIsLoading,
    AddFundsModal.setAmount, AddFundsModal.prop, AddFundsModal.spy,
    tryFinally, tryCatch, zoom, modify, gets, throw,
    mbind, mret, Async_bind, Async_ret;
  cbn.

Ltac run_page :=
  unfold Page.handleAddFunds, Page.handleAddFundsOf, Page.updateDoc,
    Page.getDoc, Page.send,
    Page.setWalletBalance, Page.setTrades, Page.setLoading,
    Page.setIsAddFundsModalOpen,
    tryFinally, tryCatch, zoom, modify, gets, throw,
    mbind, mret, Async_bind, Async_ret;
  cbn.

(** * Facts about the built-ins *)

Section SortFacts.
Context {A : Type} (compareFn : A -> A -> Z).

Lemma insertSorted_Permutation (x : A) (l : list A) :
  Permutation (JS.insertSorted compareFn x l) (x :: l).
Proof.
  induction l as [|y l IH]; simpl; [reflexivity|].
  destruct (compareFn x y <=? 0)%Z; [reflexivity|].
  rewrite IH. apply perm_swap.
Qed.

Lemma sort_Permutation (l : list A) : Permutation (JS.sort compareFn l) l.
Proof.
  induction l as [|x l IH]; simpl; [reflexivity|].
  rewrite insertSorted_Permutation. now rewrite IH.
Qed.

(** The comparator orders the elements by a key, largest key first. *)
Variable key : A -> Z.
Hypothesis compareFn_key : forall a b, compareFn a b = (key b - key a)%Z.

Lemma insertSorted_StronglySorted (x : A) (l : list A) :
  StronglySorted (Spec.largestFirst key) l ->
  StronglySorted (Spec.largestFirst key) (JS.insertSorted compareFn x l).
Proof.
  induction 1 as [|y l Hl IH Hy]; simpl.
  - repeat constructor.
  - rewrite compareFn_key.
    destruct (Z.leb_spec (key y - key x) 0) as [Hle|Hgt].
    + constructor; [now constructor|].
      constructor; [unfold Spec.largestFirst; lia|].
      eapply Forall_impl; [exact Hy|].
      unfold Spec.largestFirst. intros z Hz. lia.
    + constructor; [exact IH|].
      rewrite insertSorted_Permutation.
      constructor; [unfold Spec.largestFirst; lia | exact Hy].
Qed.

Lemma sort_StronglySorted (l : list A) :
  StronglySorted (Spec.largestFirst key) (JS.sort compareFn l).
Proof.
  induction l as [|x l IH]; simpl; [constructor|].
  now apply insertSorted_StronglySorted.
Qed.

(** The sort is stable: elements with the same key keep their order. *)
Lemma insertSorted_stable (k : Z) (x : A) (l : list A) :
  List.filter (fun a => key a =? k)%Z (JS.insertSorted compareFn x l)
  = List.filter (fun a => key a =? k)%Z (x :: l).
Proof.
  induction l as [|y l IH]; simpl; [reflexivity|].
  rewrite compareFn_key.
  destruct (Z.leb_spec (key y - key x) 0) as [Hle|Hgt]; [reflexivity|].
  simpl. rewrite IH. simpl.
  destruct (Z.eqb_spec (key x) k), (Z.eqb_spec (key y) k); try reflexivity; lia.
Qed.

Lemma sort_stable (k : Z) (l : list A) :
  List.filter (fun a => key a =? k)%Z (JS.sort compareFn l)
  = List.filter (fun a => key a =? k)%Z l.
Proof.
  induction l as [|x l IH]; simpl; [reflexivity|].
  rewrite insertSorted_stable. simpl. now rewrite IH.
Qed.

End SortFacts.

Example parseFloat_samples :
  JS.parseFloat "25.50" = 25.5%float
  /\ JS.parseFloat "-5" = (-5)%float
  /\ JS.parseFloat "  1e3" = 1000%float
  /\ JS.parseFloat ".5x" = 0.5%float
  /\ JS.parseFloat "5.e2" = 500%float
  /\ JS.parseFloat "0.1" = 0x1.999999999999ap-4%float
  /\ JS.parseFloat "9007199254740993" = 9007199254740992%float
  /\ JS.parseFloat "-0" = PrimFloat.neg_zero
  /\ JS.parseFloat "1e400" = PrimFloat.infinity
  /\ JS.parseFloat "-Infinityx" = PrimFloat.neg_infinity
  /\ JS.parseFloat "abc" = PrimFloat.nan
  /\ JS.parseFloat "" = PrimFloat.nan
  /\ JS.parseFloat "." = PrimFloat.nan
  /\ JS.parseFloat "e5" = PrimFloat.nan.
Proof. repeat split; vm_compute; reflexivity. Qed.

(** White space of more than one byte is stripped as well: U+00A0 and
    U+FEFF before "5", and U+2003 before "1.5"; U+200B is no white
    space. *)
Example parseFloat_strips_unicode_space :
  let text (bytes : list nat) (rest : string) : string :=
    fold_right (fun b s => String (ascii_of_nat b) s) rest bytes in
  JS.parseFloat (text [194; 160; 239; 187; 191] "5") = 5%float
  /\ JS.parseFloat (text [32; 226; 128; 131; 9] "1.5") = 1.5%float
  /\ JS.parseFloat (text [226; 128; 139] "5") = PrimFloat.nan.
Proof. repeat split; vm_compute; reflexivity. Qed.

(** * The Add-Funds dialog *)

(** What a submit does, by the ways it can go. *)
Lemma observedSubmit_run {S : Type}
    (onAddFunds : JS.number -> Async S unit) (onClose : Async S unit)
    (m : AddFundsModal.State) (s : S) :
  let numAmount := JS.parseFloat (AddFundsModal.amount m) in
  Spec.observedSubmit onAddFunds onClose (m, ([], s)) =
  if Spec.validAmount (AddFundsModal.amount m) then
    match onAddFunds numAmount s with
    | (Resolved _, s1) =>
        match onClose s1 with
        | (Resolved _, s2) =>
            (Resolved tt,
             ({| AddFundsModal.amount := "";
                 AddFundsModal.isLoading := false;
                 AddFundsModal.error := "" |},
              ([AddFundsModal.AddFundsCalled numAmount;
                AddFundsModal.CloseCalled], s2)))
        | (Rejected _, s2) =>
            (Resolved tt,
             ({| AddFundsModal.amount := AddFundsModal.amount m;
                 AddFundsModal.isLoading := false;
                 AddFundsModal.error :=
                   "Failed to add funds. Please try again." |},
              ([AddFundsModal.AddFundsCalled numAmount;
                AddFundsModal.CloseCalled], s2)))
        end
    | (Rejected _, s1) =>
        (Resolved tt,
         ({| AddFundsModal.amount := AddFundsModal.amount m;
             AddFundsModal.isLoading := false;
             AddFundsModal.error :=
               "Failed to add funds. Please try again." |},
          ([AddFundsModal.AddFundsCalled numAmount], s1)))
    end
  else
    (Resolved tt,
     ({| AddFundsModal.amount := AddFundsModal.amount m;
         AddFundsModal.isLoading := false;
         AddFundsModal.error := "Please enter a valid amount" |},
      ([], s))).
Proof.
  intros numAmount. unfold Spec.validAmount. fold numAmount.
  run_async. fold numAmount.
  destruct (JS.isNaN numAmount || PrimFloat.leb numAmount 0)%bool; cbn.
  - reflexivity.
  - destruct (onAddFunds numAmount s) as [[[]|e] s1]; cbn; [|reflexivity].
    destruct (onClose s1) as [[[]|e] s2]; reflexivity.
Qed.

(** C4.  For every submit of the dialog: when the entered text parses to
    not-a-number or to a value that is at most 0, the message "Please enter
    a valid amount" is shown, no prop is called and the caller's state is
    untouched; otherwise [onAddFunds] is called exactly once, with the parsed
    amount.  The texts "-5", "abc", "0" and the empty text are refused,
    "25.50" is passed on as 25.5, and there is no upper bound: "1e308" and
    "Infinity" are passed on. *)
Theorem submit_validates_amount {S : Type}
    (onAddFunds : JS.number -> Async S unit) (onClose : Async S unit)
    (m : AddFundsModal.State) (s : S) :
  (let numAmount := JS.parseFloat (AddFundsModal.amount m) in
   let '(_, (m', (calls, s'))) :=
     Spec.observedSubmit onAddFunds onClose (m, ([], s)) in
   if (JS.isNaN numAmount || PrimFloat.leb numAmount 0%float)%bool
   then AddFundsModal.error m' = "Please enter a valid amount"
        /\ calls = [] /\ s' = s
   else Spec.amountsPassed calls = [numAmount]
        /\ AddFundsModal.error m' <> "Please enter a valid amount")
  /\ (Spec.validAmount "-5" = false /\ Spec.validAmount "abc" = false
      /\ Spec.validAmount "0" = false /\ Spec.validAmount "" = false)
  /\ (Spec.validAmount "25.50" = true
      /\ JS.parseFloat "25.50" = 25.5%float)
  /\ (Spec.validAmount "1e308" = true
      /\ Spec.validAmount "Infinity" = true).
Proof.
  split.
  - cbv zeta. rewrite observedSubmit_run. unfold Spec.validAmount.
    destruct (JS.isNaN _ || PrimFloat.leb _ 0)%bool; cbn.
    + auto.
    + destruct (onAddFunds _ s) as [[[]|e] s1]; cbn.
      * destruct (onClose s1) as [[[]|e] s2]; cbn; split; auto; discriminate.
      * split; auto; discriminate.
  - repeat split; vm_compute; reflexivity.
Qed.

(** C5.  For every submit with a valid amount: when [onAddFunds] rejects,
    the dialog shows "Failed to add funds. Please try again.", [onClose] is
    not called (the dialog stays open), the submitting state is left and the
    entered text is kept; when it resolves, [onClose] is called and, once it
    returns, the input is cleared. *)
Theorem submit_reports_failure {S : Type}
    (onAddFunds : JS.number -> Async S unit) (onClose : Async S unit)
    (m : AddFundsModal.State) (s : S) :
  Spec.validAmount (AddFundsModal.amount m) = true ->
  let numAmount := JS.parseFloat (AddFundsModal.amount m) in
  let '(_, (m', (calls, s'))) :=
    Spec.observedSubmit onAddFunds onClose (m, ([], s)) in
  match onAddFunds numAmount s with
  | (Rejected _, s1) =>
      AddFundsModal.error m' = "Failed to add funds. Please try again."
      /\ calls = [AddFundsModal.AddFundsCalled numAmount]
      /\ AddFundsModal.isLoading m' = false
      /\ AddFundsModal.amount m' = AddFundsModal.amount m
      /\ s' = s1
  | (Resolved _, s1) =>
      calls = [AddFundsModal.AddFundsCalled numAmount;
               AddFundsModal.CloseCalled]
      /\ AddFundsModal.isLoading m' = false
      /\ s' = snd (onClose s1)
      /\ match fst (onClose s1) with
         | Resolved _ =>
             AddFundsModal.amount m' = "" /\ AddFundsModal.error m' = ""
         | Rejected _ =>
             AddFundsModal.amount m' = AddFundsModal.amount m
             /\ AddFundsModal.error m'
                = "Failed to add funds. Please try again."
         end
  end.
Proof.
  intros Hvalid. cbv zeta. rewrite observedSubmit_run, Hvalid.
  destruct (onAddFunds _ s) as [[[]|e] s1]; cbn.
  - destruct (onClose s1) as [[[]|e] s2]; cbn; auto.
  - auto 6.
Qed.

(** The rejected write of 50 on the page: the dialog stays open with the
    message, the amount and the balance are kept. *)
Lemma submit_reports_failure_witness :
  Spec.validAmount "50" = true
  /\ let '(_, (m', (calls, w'))) :=
       Spec.observedSubmit
         (Page.handleAddFunds (Sample.failingAt 8) (Some Sample.alice))
         (Page.setIsAddFundsModalOpen false)
         (Sample.typed "50", ([], Sample.dialogOpen)) in
     AddFundsModal.error m' = "Failed to add funds. Please try again."
     /\ calls = [AddFundsModal.AddFundsCalled 50%float]
     /\ AddFundsModal.isLoading m' = false
     /\ AddFundsModal.amount m' = "50"
     /\ Page.isAddFundsModalOpen (Page.page w') = true
     /\ Page.walletBalance (Page.page w') = 100%float.
Proof.
  assert (Spec.validAmount (AddFundsModal.amount (Sample.typed "50")) = true)
    as Hvalid by (vm_compute; reflexivity).
  split; [exact Hvalid|].
  pose proof (submit_reports_failure
                (Page.handleAddFunds (Sample.failingAt 8) (Some Sample.alice))
                (Page.setIsAddFundsModalOpen false)
                (Sample.typed "50") Sample.dialogOpen Hvalid) as H.
  vm_compute in H. vm_compute.
  destruct H as (Herror & Hcalls & Hloading & Hamount & Hworld).
  repeat split; solve [assumption | reflexivity].
Defined.

(** * The balance update *)

Section BalanceFacts.
Variable outage : nat -> bool.

(** What the write of a new balance does. *)
Lemma updateDoc_users_run (id : string) (newBalance : JS.number)
    (w : Page.World) :
  Page.updateDoc outage Db.users id (Page.walletBalanceField newBalance) w =
  let w1 := Page.sent (Db.Update ("users", id)) w in
  if outage (length (Page.requests w))
  then (Rejected (FirestoreError ("users", id)), w1)
  else
    match Db.userDocs (Page.db w) !! id with
    | Some data =>
        (Resolved tt,
         Page.onDb
           (fun d =>
              Db.setDocs Db.users
                (<[id := Page.walletBalanceField newBalance data]>
                   (Db.userDocs d)) d)
           w1)
    | None => (Rejected (FirestoreError ("users", id)), w1)
    end.
Proof.
  run_page. destruct (outage _); cbn; [reflexivity|].
  destruct (Db.userDocs (Page.db w) !! id); reflexivity.
Qed.

(** What a handler created with the balance [walletBalance] does. *)
Lemma handleAddFundsOf_run (walletBalance : JS.number) (user : option User)
    (amount : JS.number) (w : Page.World) :
  Page.handleAddFundsOf outage walletBalance user amount w =
  match user with
  | None => (Rejected UserNotFound, w)
  | Some u =>
      let newBalance := PrimFloat.add walletBalance amount in
      match Page.updateDoc outage Db.users (uid u)
              (Page.walletBalanceField newBalance) w with
      | (Resolved _, w1) =>
          (Resolved tt, Page.onPage (Page.withWalletBalance newBalance) w1)
      | (Rejected e, w1) => (Rejected e, w1)
      end
  end.
Proof.
  destruct user as [u|]; [|reflexivity].
  cbv zeta. rewrite updateDoc_users_run.
  run_page. destruct (outage _); cbn; [reflexivity|].
  destruct (Db.userDocs (Page.db w) !! uid u); reflexivity.
Qed.

(** The handler of the current render adds to the current balance. *)
Lemma handleAddFunds_run (user : option User) (amount : JS.number)
    (w : Page.World) :
  Page.handleAddFunds outage user amount w =
  match user with
  | None => (Rejected UserNotFound, w)
  | Some u =>
      let newBalance :=
        PrimFloat.add (Page.walletBalance (Page.page w)) amount in
      match Page.updateDoc outage Db.users (uid u)
              (Page.walletBalanceField newBalance) w with
      | (Resolved _, w1) =>
          (Resolved tt, Page.onPage (Page.withWalletBalance newBalance) w1)
      | (Rejected e, w1) => (Rejected e, w1)
      end
  end.
Proof. unfold Page.handleAddFunds. apply handleAddFundsOf_run. Qed.

(** C3.  [handleAddFunds] resolves exactly when an identity is present and
    the write of the new balance succeeds.  When it resolves, the in-memory
    balance and the persisted one are both the in-memory balance plus the
    amount; when it rejects, the error reaches the caller and neither the
    page state nor the backend has changed. *)
Theorem addFunds_succeeds_iff (user : option User) (amount : JS.number)
    (w : Page.World) :
  let newBalance := PrimFloat.add (Page.walletBalance (Page.page w)) amount in
  let '(r, w') := Page.handleAddFunds outage user amount w in
  (r = Resolved tt <->
   exists u, user = Some u
     /\ fst (Page.updateDoc outage Db.users (uid u)
               (Page.walletBalanceField newBalance) w) = Resolved tt)
  /\ match r with
     | Resolved _ =>
         Page.walletBalance (Page.page w') = newBalance
         /\ match user with
            | Some u =>
                UserData.walletBalance <$> Db.userDocs (Page.db w') !! uid u
                = Some (Some newBalance)
            | None => False
            end
     | Rejected _ =>
         Page.page w' = Page.page w /\ Page.db w' = Page.db w
     end.
Proof.
  cbv zeta. rewrite handleAddFunds_run.
  destruct user as [u|].
  - cbv zeta. rewrite updateDoc_users_run. cbv zeta.
    destruct (outage _) eqn:Hout; cbn.
    + split; [|auto]. split; [discriminate|].
      intros (u' & Hu & H). injection Hu as <-.
      rewrite updateDoc_users_run in H. cbv zeta in H.
      rewrite Hout in H. discriminate H.
    + destruct (Db.userDocs (Page.db w) !! uid u) as [data|] eqn:Hdoc; cbn.
      * split.
        { split; [|reflexivity]. intros _. exists u. split; [reflexivity|].
          rewrite updateDoc_users_run. cbv zeta. now rewrite Hout, Hdoc. }
        split; [reflexivity|]. now rewrite lookup_insert_eq.
      * split; [|auto]. split; [discriminate|].
        intros (u' & Hu & H). injection Hu as <-.
        rewrite updateDoc_users_run in H. cbv zeta in H.
        rewrite Hout, Hdoc in H. discriminate H.
  - split; [|auto]. split; [discriminate|]. intros (u & Hu & _). discriminate.
Qed.

(** C10.  [handleAddFunds] checks nothing about its amount: for every number,
    with an identity present and the write served, it persists and publishes
    the in-memory balance plus that amount.  The positivity check is the
    dialog's: a submit either has a valid amount or leaves the page and the
    backend as they were. *)
Theorem addFunds_takes_any_amount
    (u : User) (amount : JS.number) (w : Page.World) (data : UserData.t)
    (m : AddFundsModal.State) :
  outage (length (Page.requests w)) = false ->
  Db.userDocs (Page.db w) !! uid u = Some data ->
  let newBalance := PrimFloat.add (Page.walletBalance (Page.page w)) amount in
  (let '(r, w') := Page.handleAddFunds outage (Some u) amount w in
   r = Resolved tt
   /\ Page.walletBalance (Page.page w') = newBalance
   /\ Db.userDocs (Page.db w') !! uid u
      = Some (Page.walletBalanceField newBalance data))
  /\ (Spec.validAmount (AddFundsModal.amount m) = true
      \/ snd (snd (Page.submitAddFunds outage (Some u) (m, w))) = w).
Proof.
  intros Hserved Hdoc newBalance. split.
  - rewrite handleAddFunds_run. cbv zeta. rewrite updateDoc_users_run.
    cbv zeta. rewrite Hserved, Hdoc. cbn.
    split; [reflexivity|]. split; [reflexivity|]. apply lookup_insert_eq.
  - destruct (Spec.validAmount (AddFundsModal.amount m)) eqn:Hvalid;
      [now left|right].
    unfold Spec.validAmount in Hvalid. apply negb_false_iff in Hvalid.
    unfold Page.submitAddFunds, AddFundsModal.handleSubmit,
      AddFundsModal.setError, AddFundsModal.setIsLoading, modify, gets,
      mbind, Async_bind; cbn.
    rewrite Hvalid. reflexivity.
Qed.

End BalanceFacts.

(** Called directly with -150 on a balance of 100 the balance becomes -50,
    and with NaN it becomes NaN; the dialog refuses the text "-150". *)
Lemma addFunds_takes_any_amount_witness :
  (Sample.online (length (Page.requests Sample.loaded)) = false
   /\ Db.userDocs (Page.db Sample.loaded) !! "alice" = Some Sample.aliceData)
  /\ (let w' :=
        snd (Page.handleAddFunds Sample.online (Some Sample.alice)
               (-150)%float Sample.loaded) in
      Page.walletBalance (Page.page w') = (-50)%float
      /\ PrimFloat.ltb (Page.walletBalance (Page.page w')) 0%float = true
      /\ UserData.walletBalance <$> Db.userDocs (Page.db w') !! "alice"
         = Some (Some (-50)%float))
  /\ (let w' :=
        snd (Page.handleAddFunds Sample.online (Some Sample.alice)
               PrimFloat.nan Sample.loaded) in
      JS.isNaN (Page.walletBalance (Page.page w')) = true
      /\ UserData.walletBalance <$> Db.userDocs (Page.db w') !! "alice"
         = Some (Some PrimFloat.nan))
  /\ snd (snd (Page.submitAddFunds Sample.online (Some Sample.alice)
                 (Sample.typed "-150", Sample.loaded)))
     = Sample.loaded.
Proof.
  assert (Db.userDocs (Page.db Sample.loaded) !! uid Sample.alice
          = Some Sample.aliceData) as Hdoc by (vm_compute; reflexivity).
  split; [split; [reflexivity | exact Hdoc]|].
  destruct (addFunds_takes_any_amount Sample.online Sample.alice (-150)%float
              Sample.loaded Sample.aliceData (Sample.typed "-150")
              eq_refl Hdoc) as [Hneg [Hvalid|Hdialog]];
    [vm_compute in Hvalid; discriminate Hvalid|].
  destruct (addFunds_takes_any_amount Sample.online Sample.alice PrimFloat.nan
              Sample.loaded Sample.aliceData (Sample.typed "-150")
              eq_refl Hdoc) as [Hnan _].
  cbv zeta.
  destruct (Page.handleAddFunds Sample.online (Some Sample.alice) (-150)%float
              Sample.loaded) as [r1 w1].
  destruct (Page.handleAddFunds Sample.online (Some Sample.alice) PrimFloat.nan
              Sample.loaded) as [r2 w2].
  cbn [snd]. destruct Hneg as (_ & Hb1 & Hd1). destruct Hnan as (_ & Hb2 & Hd2).
  change (uid Sample.alice) with "alice" in *.
  rewrite Hb1, Hd1, Hb2, Hd2.
  split; [repeat split; vm_compute; reflexivity|].
  split; [repeat split; vm_compute; reflexivity|]. exact Hdialog.
Defined.

(** The sample of the specification: 50 added to a balance of 100. *)
Example add_funds_sample :
  let '(r, (m', w')) :=
    Page.submitAddFunds Sample.online (Some Sample.alice)
      (Sample.typed "50", Sample.dialogOpen) in
  r = Resolved tt
  /\ Page.walletBalance (Page.page w') = 150%float
  /\ UserData.walletBalance <$> Db.userDocs (Page.db w') !! "alice"
     = Some (Some 150%float)
  /\ Page.isAddFundsModalOpen (Page.page w') = false
  /\ m' = AddFundsModal.initial.
Proof. vm_compute. repeat split. Qed.

(** * The profile data loader *)

(** ** The assembled list *)

Lemma assemble_ids (d : Db.t) (ids : list string) :
  map Trade.id (Spec.assemble d ids)
  = map Spec.docIdOf (List.filter (Spec.resolves d) ids).
Proof.
  induction ids as [|tradeId rest IH]; [reflexivity|].
  cbn. unfold Spec.resolves at 1.
  destruct (Spec.tradeOfId d tradeId); cbn; now rewrite IH.
Qed.


(** ** Document references *)

Lemma append_empty_r (s : string) : (s ++ "")%string = s.
Proof.
  induction s as [|c s IH]; [reflexivity|].
  change (String c (s ++ "")%string = String c s). now f_equal.
Qed.

Lemma append_snoc (s : string) (c : ascii) (rest : string) :
  ((s ++ String c "") ++ rest)%string = (s ++ String c rest)%string.
Proof.
  induction s as [|c' s IH]; [reflexivity|].
  change (String c' ((s ++ String c "") ++ rest)%string
          = String c' (s ++ String c rest)%string).
  now f_equal.
Qed.

Lemma segmentsFrom_noSlash (s : string) :
  forall current : string,
  Spec.noSlash s = true ->
  Db.segmentsFrom current s
  = if String.eqb (current ++ s) "" then [] else [(current ++ s)%string].
Proof.
  induction s as [|c rest IH]; intros current Hs; cbn.
  - rewrite append_empty_r. now destruct (String.eqb current "").
  - cbn in Hs. apply andb_prop in Hs as [Hc Hrest].
    apply negb_true_iff in Hc. rewrite Hc, IH by exact Hrest.
    now rewrite append_snoc.
Qed.

Lemma hasDoubleSlash_noSlash (s : string) :
  Spec.noSlash s = true -> Db.hasDoubleSlash s = false.
Proof.
  induction s as [|c rest IH]; [reflexivity|]. cbn [Spec.noSlash].
  intros Hs. apply andb_prop in Hs as [Hc Hrest].
  apply negb_true_iff in Hc. cbn [Db.hasDoubleSlash].
  destruct rest as [|c' rest']; [reflexivity|].
  rewrite Hc. cbn [andb]. now apply IH.
Qed.

(** An id of one segment refers to the document with that id. *)
Lemma docPath_plain (id : string) :
  Spec.plain id = true -> Db.docPath id = Some [id].
Proof.
  unfold Spec.plain, Db.docPath, Db.segments. intros Hid.
  apply andb_prop in Hid as [Hne Hs]. apply negb_true_iff in Hne.
  rewrite hasDoubleSlash_noSlash, segmentsFrom_noSlash by exact Hs.
  change ("" ++ id)%string with id. now rewrite Hne.
Qed.

Lemma plain_reference (d : Db.t) (id : string) :
  Spec.plain id = true ->
  Spec.docIdOf id = id
  /\ Spec.tradeOfId d id = Db.tradeDocs d !! id
  /\ Spec.eventOfId d id = Db.eventDocs d !! id.
Proof.
  intros Hid. unfold Spec.docIdOf, Spec.tradeOfId, Spec.eventOfId.
  rewrite (docPath_plain id Hid). cbn. repeat split.
Qed.


(** ** The published order *)

Lemma newestFirst_key (a b : Trade.t) :
  Page.newestFirst a b = (Spec.createdMs b - Spec.createdMs a)%Z.
Proof. reflexivity. Qed.

Lemma sort_newestFirst_descending (l : list Trade.t) :
  StronglySorted Spec.notOlder (JS.sort Page.newestFirst l).
Proof.
  exact (sort_StronglySorted Page.newestFirst Spec.createdMs newestFirst_key l).
Qed.

(** ** The win/loss tallies *)

Lemma tally_occurrences (s : string) (l : list Trade.t) :
  length (List.filter (fun t => String.eqb (Trade.status t) s) l)
  = Spec.occurrences s (map Trade.status l).
Proof.
  unfold Spec.occurrences.
  induction l as [|t l IH]; [reflexivity|]. cbn.
  destruct (String.eqb_spec (Trade.status t) s) as [Heq|Hne];
    destruct (string_dec (Trade.status t) s); try contradiction; cbn;
    now rewrite IH.
Qed.


(** ** A load cycle *)

Section LoaderFacts.
Variable outage : nat -> bool.

Lemma getDoc_run {A : Type} (c : Db.Collection A) (id : string)
    (w : Page.World) :
  Page.getDoc outage c id w =
  if outage (length (Page.requests w))
  then (Rejected (FirestoreError (Db.name c, id)),
        Page.sent (Db.Get (Db.name c, id)) w)
  else (Resolved (Db.docs c (Page.db w) !! id),
        Page.sent (Db.Get (Db.name c, id)) w).
Proof. run_page. now destruct (outage _). Qed.

(** For a uid of one segment, building the reference of the user document
    and fetching it is fetching the document with that id. *)
Lemma getDoc_users_plain (u : User) (w : Page.World) :
  Spec.plain (uid u) = true ->
  (userRef ← Page.doc Db.users (uid u);
   Page.getDoc outage Db.users (Db.key userRef)) w
  = Page.getDoc outage Db.users (uid u) w.
Proof.
  intros Hplain. unfold mbind at 1, Async_bind at 1, Page.doc.
  now rewrite (docPath_plain (uid u) Hplain).
Qed.

Lemma fetchTrades_cons (tradeId : string) (rest : list string)
    (tradesData : list Trade.t) (w : Page.World) :
  Page.fetchTrades outage (tradeId :: rest) tradesData w =
  match Db.docPath tradeId with
  | None => (Rejected (FirestoreError ("trades", tradeId)), w)
  | Some tradeRef =>
      match Page.getDoc outage Db.trades (Db.key tradeRef) w with
      | (Resolved (Some tradeData), w1) =>
          match Db.docPath (TradeDoc.eventId tradeData) with
          | None =>
              (Rejected
                 (FirestoreError ("events", TradeDoc.eventId tradeData)), w1)
          | Some eventRef =>
              match Page.getDoc outage Db.events (Db.key eventRef) w1 with
              | (Resolved eventData, w2) =>
                  Page.fetchTrades outage rest
                    (tradesData
                       ++ [Page.tradeOf (Db.docId tradeRef) tradeData
                             eventData]) w2
              | (Rejected e, w2) => (Rejected e, w2)
              end
          end
      | (Resolved None, w1) => Page.fetchTrades outage rest tradesData w1
      | (Rejected e, w1) => (Rejected e, w1)
      end
  end.
Proof.
  cbn [Page.fetchTrades]. unfold mbind at 1, Async_bind at 1, Page.doc at 1.
  destruct (Db.docPath tradeId) as [tradeRef|]; [|reflexivity].
  unfold mret at 1, Async_ret at 1. cbv iota beta.
  unfold mbind at 1, Async_bind at 1.
  destruct (Page.getDoc outage Db.trades (Db.key tradeRef) w)
    as [[[tradeData|]|e] w1]; try reflexivity.
  unfold mbind at 1, Async_bind at 1, Page.doc at 1.
  destruct (Db.docPath (TradeDoc.eventId tradeData)) as [eventRef|];
    reflexivity.
Qed.

(** A served request in front of a run. *)
Lemma servedOrStopped_after {A : Type} (built : bool) (w : Page.World)
    (r0 : Db.Request) (sent : list Db.Request) (r : Outcome A) :
  outage (length (Page.requests w)) = false ->
  Spec.servedOrStopped outage built (Page.sent r0 w) sent r ->
  Spec.servedOrStopped outage built w (r0 :: sent) r.
Proof.
  unfold Spec.servedOrStopped, Page.sent. cbn [Page.requests].
  rewrite length_app. cbn [length]. intros Hout.
  assert (forall hi : nat,
            (forall n, length (Page.requests w) + 1 <= n < hi ->
                       outage n = false) ->
            forall n, length (Page.requests w) <= n < hi -> outage n = false)
    as Hextend.
  { intros hi Hserved n Hn.
    destruct (decide (n = length (Page.requests w))) as [->|Hne];
      [exact Hout | apply Hserved; lia]. }
  destruct r as [a|e].
  - intros [Hbuilt Hserved]. split; [exact Hbuilt|].
    apply Hextend. intros n Hn. apply Hserved. lia.
  - intros [(k & Hlen & Hfail & Hbefore)|[Hbuilt Hserved]].
    + left. exists (S k). split; [now rewrite Hlen|].
      split; [now rewrite <- Hfail; f_equal; lia|].
      apply Hextend. intros n Hn. apply Hbefore. lia.
    + right. split; [exact Hbuilt|].
      apply Hextend. intros n Hn. apply Hserved. lia.
Qed.

(** A run that consists of one failed request. *)
Lemma servedOrStopped_failed {A : Type} (built : bool) (w : Page.World)
    (r0 : Db.Request) (e : Err) :
  outage (length (Page.requests w)) = true ->
  Spec.servedOrStopped outage built w [r0] (@Rejected A e).
Proof.
  intros Hout. left. exists 0. rewrite Nat.add_0_r.
  repeat split; [exact Hout | intros n Hn; lia].
Qed.

(** A run stopped before its first request by a reference that cannot be
    built. *)
Lemma servedOrStopped_unbuilt {A : Type} (w : Page.World) (e : Err) :
  Spec.servedOrStopped outage false w [] (@Rejected A e).
Proof. right. split; [reflexivity|]. cbn. intros n Hn. lia. Qed.

Lemma sent_requests (w : Page.World) (r0 : Db.Request)
    (sent : list Db.Request) :
  {| Page.page := Page.page (Page.sent r0 w);
     Page.db := Page.db (Page.sent r0 w);
     Page.requests := Page.requests (Page.sent r0 w) ++ sent |}
  = {| Page.page := Page.page w; Page.db := Page.db w;
       Page.requests := Page.requests w ++ r0 :: sent |}.
Proof. cbn. now rewrite <- app_assoc. Qed.

(** The loop leaves the page and the documents alone, sends its requests in
    order and stops at the first one that fails or at the first reference
    that cannot be built; otherwise it returns the assembled list. *)
Lemma fetchTrades_run (userTrades : list string) :
  forall (tradesData : list Trade.t) (w : Page.World),
  exists sent : list Db.Request,
    let rw := Page.fetchTrades outage userTrades tradesData w in
    snd rw = {| Page.page := Page.page w; Page.db := Page.db w;
                Page.requests := Page.requests w ++ sent |}
    /\ Spec.servedOrStopped outage (Spec.refsBuilt (Page.db w) userTrades)
         w sent (fst rw)
    /\ match fst rw with
       | Resolved l => l = tradesData ++ Spec.assemble (Page.db w) userTrades
       | Rejected _ => True
       end.
Proof.
  induction userTrades as [|tradeId rest IH]; intros tradesData w.
  - exists []. cbn. destruct w; cbn. rewrite !app_nil_r.
    repeat split; [intros n Hn; lia].
  - cbv zeta. rewrite fetchTrades_cons.
    cbn [Spec.assemble Spec.refsBuilt].
    unfold Spec.tradeOfId, Spec.docIdOf.
    destruct (Db.docPath tradeId) as [tradeRef|].
    2:{ exists []. cbn [fst snd].
        split; [destruct w; cbn; now rewrite app_nil_r|].
        split; [apply servedOrStopped_unbuilt|exact I]. }
    rewrite getDoc_run.
    destruct (outage (length (Page.requests w))) eqn:Hout0.
    { exists [Db.Get ("trades", Db.key tradeRef)]. cbn [fst snd].
      split; [reflexivity|]. split; [|exact I].
      now apply servedOrStopped_failed. }
    cbn [Db.docs Db.name].
    set (w1 := Page.sent (Db.Get ("trades", Db.key tradeRef)) w).
    destruct (Db.tradeDocs (Page.db w) !! Db.key tradeRef) as [td|] eqn:Htd.
    + unfold Spec.eventOfId.
      destruct (Db.docPath (TradeDoc.eventId td)) as [eventRef|].
      2:{ exists [Db.Get ("trades", Db.key tradeRef)]. cbn [fst snd].
          split; [reflexivity|]. split; [|exact I].
          apply servedOrStopped_after; [exact Hout0|].
          apply servedOrStopped_unbuilt. }
      rewrite getDoc_run. cbn [Db.docs Db.name].
      destruct (outage (length (Page.requests w1))) eqn:Hout1.
      { exists [Db.Get ("trades", Db.key tradeRef);
                Db.Get ("events", Db.key eventRef)]. cbn [fst snd].
        split; [unfold Page.sent; cbn; now rewrite <- app_assoc|].
        split; [|exact I].
        apply servedOrStopped_after; [exact Hout0|].
        now apply servedOrStopped_failed. }
      set (w2 := Page.sent (Db.Get ("events", Db.key eventRef)) w1).
      destruct (IH (tradesData
                      ++ [Page.tradeOf (Db.docId tradeRef) td
                            (Db.eventDocs (Page.db w1) !! Db.key eventRef)])
                  w2)
        as (sent & Hw & Hrun & Hres).
      exists (Db.Get ("trades", Db.key tradeRef)
                :: Db.Get ("events", Db.key eventRef) :: sent).
      cbv zeta in Hw, Hrun, Hres.
      destruct (Page.fetchTrades outage rest _ w2) as [r w'].
      cbn [fst snd] in *.
      split; [rewrite Hw; unfold w2; rewrite sent_requests; unfold w1;
              now rewrite sent_requests|].
      split; [now repeat apply servedOrStopped_after|].
      destruct r as [l|e]; [|exact I].
      rewrite Hres. cbn. now rewrite <- app_assoc.
    + destruct (IH tradesData w1) as (sent & Hw & Hrun & Hres).
      exists (Db.Get ("trades", Db.key tradeRef) :: sent).
      cbv zeta in Hw, Hrun, Hres.
      destruct (Page.fetchTrades outage rest _ w1) as [r w'].
      cbn [fst snd] in *.
      split; [rewrite Hw; unfold w1; now rewrite sent_requests|].
      split; [now apply servedOrStopped_after | exact Hres].
Qed.

Lemma fetchUserData_eq (u : User) (w : Page.World) :
  Page.fetchUserData outage (Some u) w =
  let w1 := Page.sent (Db.Get ("users", uid u)) w in
  if outage (length (Page.requests w))
  then (Resolved tt, Page.onPage (Page.withLoading false) w1)
  else
    match Db.userDocs (Page.db w) !! uid u with
    | None =>
        (Resolved tt,
         Page.onPage (Page.withLoading false)
           (Page.onPage (Page.withLoading false) w1))
    | Some userData =>
        match Page.fetchTrades outage (JS.orEmpty (UserData.trades userData)) []
                (Page.onPage
                   (Page.withWalletBalance
                      (JS.orZero (UserData.walletBalance userData))) w1) with
        | (Resolved tradesData, w2) =>
            (Resolved tt,
             Page.onPage (Page.withLoading false)
               (Page.onPage
                  (Page.withTrades (JS.sort Page.newestFirst tradesData)) w2))
        | (Rejected _, w2) =>
            (Resolved tt, Page.onPage (Page.withLoading false) w2)
        end
    end.
Proof.
  unfold Page.fetchUserData, tryFinally, tryCatch.
  unfold mbind at 1, Async_bind at 1. rewrite getDoc_run.
  destruct (outage (length (Page.requests w))); [reflexivity|].
  cbn [Db.docs].
  destruct (Db.userDocs (Page.db w) !! uid u) as [userData|]; [|reflexivity].
  unfold mbind at 1, Async_bind at 1.
  unfold Page.setWalletBalance at 1, modify at 1.
  unfold mbind at 1, Async_bind at 1. cbv zeta. cbn [Db.name].
  now destruct (Page.fetchTrades outage _ _ _) as [[l|e] w2].
Qed.

(** The ways a cycle for a present identity can go: the fetch of the user
    record fails; there is no user record; every reference is built and
    every fetch served; a later fetch fails; or a reference cannot be
    built. *)
Lemma fetchUserData_run (u : User) (w : Page.World) :
  exists sent : list Db.Request,
    let rw := Page.fetchUserData outage (Some u) w in
    let first := length (Page.requests w) in
    fst rw = Resolved tt
    /\ Page.db (snd rw) = Page.db w
    /\ Page.requests (snd rw)
       = Page.requests w ++ Db.Get ("users", uid u) :: sent
    /\ if outage first
       then sent = []
            /\ Page.page (snd rw) = Page.withLoading false (Page.page w)
       else
         match Db.userDocs (Page.db w) !! uid u with
         | None =>
             sent = []
             /\ Page.page (snd rw) = Page.withLoading false (Page.page w)
         | Some userData =>
             let balance := JS.orZero (UserData.walletBalance userData) in
             let userTrades := JS.orEmpty (UserData.trades userData) in
             (Spec.refsBuilt (Page.db w) userTrades = true
              /\ (forall n,
                    first < n < first + 1 + length sent -> outage n = false)
              /\ Page.page (snd rw)
                 = Page.withLoading false
                     (Page.withTrades
                        (JS.sort Page.newestFirst
                           (Spec.assemble (Page.db w) userTrades))
                        (Page.withWalletBalance balance (Page.page w))))
             \/ (exists k, length sent = S k
                   /\ outage (first + 1 + k) = true
                   /\ (forall n, first < n < first + 1 + k -> outage n = false)
                   /\ Page.page (snd rw)
                      = Page.withLoading false
                          (Page.withWalletBalance balance (Page.page w)))
             \/ (Spec.refsBuilt (Page.db w) userTrades = false
                 /\ (forall n,
                       first < n < first + 1 + length sent -> outage n = false)
                 /\ Page.page (snd rw)
                    = Page.withLoading false
                        (Page.withWalletBalance balance (Page.page w)))
         end.
Proof.
  cbv zeta. rewrite fetchUserData_eq. cbv zeta.
  destruct (outage (length (Page.requests w))) eqn:Hout0.
  { exists []. cbn. auto. }
  destruct (Db.userDocs (Page.db w) !! uid u) as [userData|] eqn:Hdoc.
  2:{ exists []. cbn. auto. }
  destruct (fetchTrades_run (JS.orEmpty (UserData.trades userData)) []
              (Page.onPage
                 (Page.withWalletBalance
                    (JS.orZero (UserData.walletBalance userData)))
                 (Page.sent (Db.Get ("users", uid u)) w)))
    as (sent & Hw & Hrun & Hres).
  exists sent. cbv zeta in Hw, Hrun, Hres.
  destruct (Page.fetchTrades outage _ _ _) as [r w'].
  cbn [fst snd] in Hw, Hrun, Hres. subst w'.
  unfold Spec.servedOrStopped in Hrun.
  unfold Page.onPage, Page.sent in Hrun.
  cbn [Page.requests Page.db] in Hrun.
  rewrite length_app in Hrun. cbn [length] in Hrun.
  destruct r as [l|e]; cbn.
  - subst l. rewrite <- app_assoc. cbn. repeat split.
    left. destruct Hrun as [Hbuilt Hserved].
    split; [exact Hbuilt|]. split; [|reflexivity].
    intros n Hn. apply Hserved. lia.
  - rewrite <- app_assoc. cbn. repeat split.
    right. destruct Hrun as [(k & Hlen & Hfail & Hbefore)|[Hbuilt Hserved]].
    + left. exists k. repeat split; try assumption.
      intros n Hn. apply Hbefore. lia.
    + right. split; [exact Hbuilt|]. split; [|reflexivity].
      intros n Hn. apply Hserved. lia.
Qed.

(** A cycle whose references were all built and whose requests were all
    served, for an account that exists, publishes the sorted assembled list
    and the account's balance. *)
Lemma fetchUserData_served (u : User) (w : Page.World) (userData : UserData.t) :
  let w' := snd (Page.fetchUserData outage (Some u) w) in
  Spec.allServed outage w w' ->
  Db.userDocs (Page.db w) !! uid u = Some userData ->
  Spec.refsBuilt (Page.db w) (JS.orEmpty (UserData.trades userData)) = true ->
  Page.page w'
  = Page.withLoading false
      (Page.withTrades
         (JS.sort Page.newestFirst
            (Spec.assemble (Page.db w) (JS.orEmpty (UserData.trades userData))))
         (Page.withWalletBalance
            (JS.orZero (UserData.walletBalance userData)) (Page.page w))).
Proof.
  intros w' Hserved Hdoc Hbuilt. subst w'.
  destruct (fetchUserData_run u w) as (sent & _ & _ & Hreq & Hcase).
  cbv zeta in Hcase. unfold Spec.allServed in Hserved.
  rewrite Hreq, length_app in Hserved. cbn [length] in Hserved.
  rewrite (Hserved (length (Page.requests w))), Hdoc in Hcase by lia.
  destruct Hcase as [(_ & _ & Hpage)|[(k & Hlen & Hfail & _)|(Hnot & _)]];
    [exact Hpage| |congruence].
  rewrite Hserved in Hfail by lia. discriminate.
Qed.

(** A cycle that meets a reference it cannot build, all requests before it
    served, publishes the account's balance and nothing else. *)
Lemma fetchUserData_unbuilt (u : User) (w : Page.World) (userData : UserData.t) :
  let w' := snd (Page.fetchUserData outage (Some u) w) in
  Spec.allServed outage w w' ->
  Db.userDocs (Page.db w) !! uid u = Some userData ->
  Spec.refsBuilt (Page.db w) (JS.orEmpty (UserData.trades userData)) = false ->
  Page.page w'
  = Page.withLoading false
      (Page.withWalletBalance
         (JS.orZero (UserData.walletBalance userData)) (Page.page w)).
Proof.
  intros w' Hserved Hdoc Hbuilt. subst w'.
  destruct (fetchUserData_run u w) as (sent & _ & _ & Hreq & Hcase).
  cbv zeta in Hcase. unfold Spec.allServed in Hserved.
  rewrite Hreq, length_app in Hserved. cbn [length] in Hserved.
  rewrite (Hserved (length (Page.requests w))), Hdoc in Hcase by lia.
  destruct Hcase as [(Hyes & _)|[(k & Hlen & Hfail & _)|(_ & _ & Hpage)]];
    [congruence| |exact Hpage].
  rewrite Hserved in Hfail by lia. discriminate.
Qed.

(** C1, as amended.  When a fetch of a load cycle fails, the cycle stops at
    that fetch, the error is swallowed, the loading state ends and the
    published trade list is the one from before the cycle.  The published
    balance is the one from before the cycle only when the failed fetch is
    the first of the cycle, that of the user record; after that fetch the
    balance of the account (0 when absent or falsy) has been published
    already, and it stays. *)
Theorem fetch_failure_aborts_cycle (u : User) (w : Page.World) (n : nat) :
  let rw := Page.fetchUserData outage (Some u) w in
  let w' := snd rw in
  length (Page.requests w) <= n < length (Page.requests w') ->
  outage n = true ->
  fst rw = Resolved tt
  /\ length (Page.requests w') = S n
  /\ Page.loading (Page.page w') = false
  /\ Page.trades (Page.page w') = Page.trades (Page.page w)
  /\ Page.walletBalance (Page.page w')
     = if (n =? length (Page.requests w))%nat
       then Page.walletBalance (Page.page w)
       else
         match Db.userDocs (Page.db w) !! uid u with
         | Some userData => JS.orZero (UserData.walletBalance userData)
         | None => Page.walletBalance (Page.page w)
         end.
Proof.
  intros rw w'. subst rw w'.
  destruct (fetchUserData_run u w) as (sent & Hres & _ & Hreq & Hcase).
  cbv zeta in Hcase. rewrite Hreq, length_app. cbn [length].
  intros Hn Hfail. split; [exact Hres|].
  destruct (outage (length (Page.requests w))) eqn:Hout0.
  - destruct Hcase as [-> Hpage]. cbn [length] in *. rewrite Hpage.
    assert (n = length (Page.requests w)) as -> by lia.
    rewrite Nat.eqb_refl. repeat split. lia.
  - assert (n <> length (Page.requests w)) as Hne by congruence.
    destruct (Db.userDocs (Page.db w) !! uid u) as [userData|].
    + destruct Hcase
        as [(_ & Hserved & _)
           |[(k & Hlen & Hstop & Hbefore & Hpage)|(_ & Hserved & _)]].
      * rewrite Hserved in Hfail by lia. discriminate.
      * assert (n = length (Page.requests w) + 1 + k) as ->.
        { destruct (decide (n = length (Page.requests w) + 1 + k));
            [assumption|].
          rewrite Hbefore in Hfail by lia. discriminate. }
        rewrite Hpage, Hlen. apply Nat.eqb_neq in Hne. rewrite Hne.
        repeat split. lia.
      * rewrite Hserved in Hfail by lia. discriminate.
    + destruct Hcase as [-> _]. cbn [length] in Hn. lia.
Qed.

(** C2, as amended.  A cycle without an identity clears the loading state,
    sends no request and leaves the trade list and the balance as they were:
    the empty list and 0 on a freshly mounted page.  The page then renders
    the sign-in prompt. *)
Theorem no_identity_cycle (w : Page.World) :
  let rw := Page.fetchUserData outage None w in
  let w' := snd rw in
  (fst rw = Resolved tt
   /\ Page.loading (Page.page w') = false
   /\ Page.requests w' = Page.requests w
   /\ Page.db w' = Page.db w
   /\ Page.trades (Page.page w') = Page.trades (Page.page w)
   /\ Page.walletBalance (Page.page w') = Page.walletBalance (Page.page w)
   /\ Page.render None (Page.page w') = Page.SignInPrompt)
  /\ (let fresh :=
        snd (Page.fetchUserData outage None
               {| Page.page := Page.initial; Page.db := Page.db w;
                  Page.requests := Page.requests w |}) in
      Page.trades (Page.page fresh) = []
      /\ Page.walletBalance (Page.page fresh) = 0%float).
Proof. cbn. repeat split. Qed.

(** C6.  After a successful cycle (every reference built, every fetch
    served, for an account that exists) the published trades are those of
    the ids of the account's [trades] that resolve to a trade document, each
    as often as it is listed and under the id of its document, which for an
    id of one segment is the listed id; the others are dropped, and the
    rendered list has as many cards as there are ids that resolve. *)
Theorem published_ids_are_resolvable_ids
    (u : User) (w : Page.World) (userData : UserData.t) :
  let w' := snd (Page.fetchUserData outage (Some u) w) in
  let ids := JS.orEmpty (UserData.trades userData) in
  let resolving := List.filter (Spec.resolves (Page.db w)) ids in
  Spec.allServed outage w w' ->
  Db.userDocs (Page.db w) !! uid u = Some userData ->
  Spec.refsBuilt (Page.db w) ids = true ->
  Permutation (map Trade.id (Page.trades (Page.page w')))
    (map Spec.docIdOf resolving)
  /\ (forall id : string,
        In id (map Trade.id (Page.trades (Page.page w')))
        <-> exists tradeId : string,
              In tradeId ids /\ Spec.resolves (Page.db w) tradeId = true
              /\ Spec.docIdOf tradeId = id)
  /\ Permutation
       (map Page.key (Spec.cardsShown (Page.render (Some u) (Page.page w'))))
       (map Spec.docIdOf resolving)
  /\ length (Spec.cardsShown (Page.render (Some u) (Page.page w')))
     = length resolving
  /\ (forall tradeId : string,
        Spec.plain tradeId = true ->
        Spec.docIdOf tradeId = tradeId
        /\ Spec.resolves (Page.db w) tradeId
           = bool_decide (is_Some (Db.tradeDocs (Page.db w) !! tradeId))).
Proof.
  intros w' ids resolving Hserved Hdoc Hbuilt.
  pose proof (fetchUserData_served u w userData Hserved Hdoc Hbuilt) as Hpage.
  fold w' in Hpage. fold ids in Hpage.
  assert (Permutation (map Trade.id (Page.trades (Page.page w')))
            (map Spec.docIdOf resolving)) as Hperm.
  { rewrite Hpage. cbn. unfold resolving. rewrite <- assemble_ids.
    apply Permutation_map, sort_Permutation. }
  assert (map Page.key (Spec.cardsShown (Page.render (Some u) (Page.page w')))
          = map Trade.id (Page.trades (Page.page w'))) as Hkeys.
  { unfold Page.render. rewrite Hpage. cbn.
    destruct (JS.sort _ _) as [|t l]; [reflexivity|].
    cbn. f_equal. rewrite map_map. reflexivity. }
  split; [exact Hperm|]. split; [|split; [|split]].
  - intros id. split.
    + intros Hin. apply (Permutation_in _ Hperm) in Hin.
      apply in_map_iff in Hin as (tradeId & Hid & Hin).
      apply List.filter_In in Hin as [Hin Hres]. now exists tradeId.
    + intros (tradeId & Hin & Hres & Hid).
      apply (Permutation_in _ (Permutation_sym Hperm)).
      apply in_map_iff. exists tradeId. split; [exact Hid|].
      now apply List.filter_In.
  - now rewrite Hkeys.
  - rewrite <- (length_map Page.key), Hkeys, Hperm. apply length_map.
  - intros tradeId Hplain.
    destruct (plain_reference (Page.db w) tradeId Hplain) as (Hid & Htrade & _).
    split; [exact Hid|]. unfold Spec.resolves. rewrite Htrade.
    now destruct (Db.tradeDocs (Page.db w) !! tradeId).
Qed.


(** C8, as amended.  After a successful cycle the published list holds the
    assembled trades in descending order of the whole millisecond of their
    [createdAt], the number [createdAt.toDate().getTime()]: no trade stands
    before one whose millisecond is later. *)
Theorem published_newest_first
    (u : User) (w : Page.World) (userData : UserData.t) :
  let w' := snd (Page.fetchUserData outage (Some u) w) in
  let ids := JS.orEmpty (UserData.trades userData) in
  Spec.allServed outage w w' ->
  Db.userDocs (Page.db w) !! uid u = Some userData ->
  Spec.refsBuilt (Page.db w) ids = true ->
  Permutation (Page.trades (Page.page w')) (Spec.assemble (Page.db w) ids)
  /\ StronglySorted Spec.notOlder (Page.trades (Page.page w')).
Proof.
  intros w' ids Hserved Hdoc Hbuilt.
  pose proof (fetchUserData_served u w userData Hserved Hdoc Hbuilt) as Hpage.
  fold w' in Hpage. rewrite Hpage. cbn. split.
  - apply sort_Permutation.
  - apply sort_newestFirst_descending.
Qed.

End LoaderFacts.

(** C9.  The record the page displays is the number of published trades
    whose status is "won" and the number whose status is "lost"; every other
    status counts for neither.  The statuses won, won, lost, pending display
    as 2W - 1L. *)
Theorem record_counts_won_and_lost (u : User) (p : Page.State) :
  (Page.wins (Page.trades p), Page.losses (Page.trades p))
  = (Spec.occurrences "won" (map Trade.status (Page.trades p)),
     Spec.occurrences "lost" (map Trade.status (Page.trades p)))
  /\ match Page.render (Some u) p with
     | Page.MainView main =>
         Page.tradeRecord main
         = (Spec.occurrences "won" (map Trade.status (Page.trades p)),
            Spec.occurrences "lost" (map Trade.status (Page.trades p)))
     | _ => Page.loading p = true
     end
  /\ (let shown := [Sample.trade "a" "won" 4; Sample.trade "b" "won" 3;
                    Sample.trade "c" "lost" 2; Sample.trade "d" "pending" 1] in
      (Page.wins shown, Page.losses shown) = (2, 1))
  /\ (let shown := [Sample.trade "a" "Won" 4; Sample.trade "b" "cancelled" 3;
                    Sample.trade "c" "" 2; Sample.trade "d" "lost " 1] in
      (Page.wins shown, Page.losses shown) = (0, 0)).
Proof.
  assert ((Page.wins (Page.trades p), Page.losses (Page.trades p))
          = (Spec.occurrences "won" (map Trade.status (Page.trades p)),
             Spec.occurrences "lost" (map Trade.status (Page.trades p)))) as H.
  { unfold Page.wins, Page.losses. now rewrite !tally_occurrences. }
  split; [exact H|]. split; [|split; reflexivity].
  unfold Page.render. destruct (Page.loading p); [reflexivity|exact H].
Qed.

(** ** The loader on the sample backend *)

Lemma online_allServed (w w' : Page.World) : Spec.allServed Sample.online w w'.
Proof. intros n _. reflexivity. Defined.

(** The fetch of the first trade fails: the cycle stops after two requests
    with no trades published and the balance of the account shown. *)
Lemma fetch_failure_aborts_cycle_witness :
  let w' :=
    snd (Page.fetchUserData (Sample.failingAt 1) (Some Sample.alice)
           Sample.mounted) in
  length (Page.requests Sample.mounted) <= 1 < length (Page.requests w')
  /\ Sample.failingAt 1 1 = true
  /\ length (Page.requests w') = 2
  /\ Page.loading (Page.page w') = false
  /\ Page.trades (Page.page w') = []
  /\ Page.walletBalance (Page.page w') = 100%float.
Proof.
  cbv zeta.
  assert (length (Page.requests Sample.mounted) <= 1
          < length (Page.requests
                      (snd (Page.fetchUserData (Sample.failingAt 1)
                              (Some Sample.alice) Sample.mounted)))) as Hn
    by (vm_compute; lia).
  destruct (fetch_failure_aborts_cycle (Sample.failingAt 1) Sample.alice
              Sample.mounted 1 Hn eq_refl)
    as (_ & Hlen & Hloading & Htrades & Hbalance).
  vm_compute in Hbalance.
  repeat split; solve [apply Hn | assumption].
Defined.

(** C1 as stated fails: on a freshly mounted page the fetch of the first
    trade fails, and the published balance has gone from 0 to 100. *)
Lemma fetch_failure_changes_balance :
  let w := Sample.mounted in
  let w' :=
    snd (Page.fetchUserData (Sample.failingAt 1) (Some Sample.alice) w) in
  (length (Page.requests w) <= 1 < length (Page.requests w')
   /\ Sample.failingAt 1 1 = true)
  /\ Page.requests w'
     = [Db.Get ("users", "alice"); Db.Get ("trades", "t3")]
  /\ Page.walletBalance (Page.page w) = 0%float
  /\ Page.walletBalance (Page.page w') = 100%float
  /\ Page.walletBalance (Page.page w') <> Page.walletBalance (Page.page w).
Proof.
  cbv zeta. split; [split; [vm_compute; lia|reflexivity]|].
  split; [vm_compute; reflexivity|]. split; [reflexivity|].
  split; [vm_compute; reflexivity|].
  intros H. apply (f_equal (PrimFloat.eqb 100%float)) in H.
  vm_compute in H. discriminate H.
Qed.

(** C2 as stated fails: a cycle without an identity that follows Alice's
    loaded profile (a sign-out) keeps her three trades and her balance. *)
Lemma sign_out_keeps_trades_and_balance :
  let w' := snd (Page.fetchUserData Sample.online None Sample.loaded) in
  map Trade.id (Page.trades (Page.page Sample.loaded)) = ["t1"; "t2"; "t3"]
  /\ map Trade.id (Page.trades (Page.page w')) = ["t1"; "t2"; "t3"]
  /\ Page.trades (Page.page w') <> []
  /\ Page.walletBalance (Page.page w') = 100%float
  /\ Page.walletBalance (Page.page w') <> 0%float.
Proof.
  cbv zeta. split; [vm_compute; reflexivity|].
  split; [vm_compute; reflexivity|]. split.
  { intros H. apply (f_equal (@length _)) in H. vm_compute in H.
    discriminate H. }
  split; [vm_compute; reflexivity|].
  intros H. apply (f_equal (PrimFloat.eqb 100%float)) in H.
  vm_compute in H. discriminate H.
Qed.

(** Of Alice's four ids three resolve, and three cards are rendered. *)
Lemma published_ids_are_resolvable_ids_witness :
  let w' :=
    snd (Page.fetchUserData Sample.online (Some Sample.alice) Sample.mounted) in
  (Spec.allServed Sample.online Sample.mounted w'
   /\ Db.userDocs (Page.db Sample.mounted) !! "alice" = Some Sample.aliceData
   /\ Spec.refsBuilt Sample.db ["t3"; "ghost"; "t1"; "t2"] = true)
  /\ List.filter (Spec.resolves Sample.db) ["t3"; "ghost"; "t1"; "t2"]
     = ["t3"; "t1"; "t2"]
  /\ Permutation (map Trade.id (Page.trades (Page.page w'))) ["t3"; "t1"; "t2"]
  /\ length (Spec.cardsShown (Page.render (Some Sample.alice) (Page.page w')))
     = 3.
Proof.
  cbv zeta.
  assert (Db.userDocs (Page.db Sample.mounted) !! uid Sample.alice
          = Some Sample.aliceData) as Hdoc by (vm_compute; reflexivity).
  assert (Spec.refsBuilt (Page.db Sample.mounted)
            (JS.orEmpty (UserData.trades Sample.aliceData)) = true) as Hbuilt
    by (vm_compute; reflexivity).
  assert (List.filter (Spec.resolves Sample.db) ["t3"; "ghost"; "t1"; "t2"]
          = ["t3"; "t1"; "t2"]) as Hfilter by (vm_compute; reflexivity).
  destruct (published_ids_are_resolvable_ids Sample.online Sample.alice
              Sample.mounted Sample.aliceData (online_allServed _ _) Hdoc
              Hbuilt)
    as (Hperm & _ & _ & Hlen & _).
  change (JS.orEmpty (UserData.trades Sample.aliceData))
    with ["t3"; "ghost"; "t1"; "t2"] in Hperm, Hlen.
  change (Page.db Sample.mounted) with Sample.db in Hperm, Hlen.
  rewrite Hfilter in Hperm, Hlen.
  split; [repeat split; solve [apply online_allServed | assumption]|].
  repeat split; assumption.
Defined.



(** Trades created at [T-3], [T-1], [T-2] are published in the order
    [T-1], [T-2], [T-3]. *)
Lemma published_newest_first_witness :
  let w' :=
    snd (Page.fetchUserData Sample.online (Some Sample.alice) Sample.mounted) in
  (Spec.allServed Sample.online Sample.mounted w'
   /\ Db.userDocs (Page.db Sample.mounted) !! "alice" = Some Sample.aliceData
   /\ Spec.refsBuilt Sample.db ["t3"; "ghost"; "t1"; "t2"] = true)
  /\ map Trade.id
       (Spec.assemble Sample.db (JS.orEmpty (UserData.trades Sample.aliceData)))
     = ["t3"; "t1"; "t2"]
  /\ map Trade.id (Page.trades (Page.page w')) = ["t1"; "t2"; "t3"]
  /\ Permutation (Page.trades (Page.page w'))
       (Spec.assemble Sample.db (JS.orEmpty (UserData.trades Sample.aliceData)))
  /\ StronglySorted Spec.notOlder (Page.trades (Page.page w')).
Proof.
  cbv zeta.
  assert (Db.userDocs (Page.db Sample.mounted) !! uid Sample.alice
          = Some Sample.aliceData) as Hdoc by (vm_compute; reflexivity).
  assert (Spec.refsBuilt (Page.db Sample.mounted)
            (JS.orEmpty (UserData.trades Sample.aliceData)) = true) as Hbuilt
    by (vm_compute; reflexivity).
  split; [repeat split; solve [apply online_allServed | assumption]|].
  split; [vm_compute; reflexivity|]. split; [vm_compute; reflexivity|].
  exact (published_newest_first Sample.online Sample.alice Sample.mounted
           Sample.aliceData (online_allServed _ _) Hdoc Hbuilt).
Defined.

(** C8 as stated fails: Erin's trade [e2] was created 0.4 ms after [e1];
    both have the same millisecond, the comparator returns 0 for them, and
    they are published in the order of the account's list, the older one
    first. *)
Lemma trades_of_one_millisecond_stay_older_first :
  let w := Scenario.closeMounted in
  let w' := snd (Page.fetchUserData Sample.online (Some Scenario.erin) w) in
  (Spec.allServed Sample.online w w'
   /\ Db.userDocs (Page.db w) !! "erin" = Some Scenario.erinData
   /\ Spec.refsBuilt (Page.db w) ["e1"; "e2"] = true)
  /\ exists older newer : Trade.t,
       Page.trades (Page.page w') = [older; newer]
       /\ (Trade.id older, Trade.id newer) = ("e1", "e2")
       /\ Trade.createdAt older
          = {| Firestore.seconds := 1700000000; Firestore.nanoseconds := 0 |}
       /\ Trade.createdAt newer
          = {| Firestore.seconds := 1700000000;
               Firestore.nanoseconds := 400000 |}
       /\ Spec.createdBefore older newer
       /\ Page.newestFirst older newer = 0%Z
       /\ ~ Spec.descendingByCreatedAt (Page.trades (Page.page w')).
Proof.
  cbv zeta.
  split; [repeat split; solve [apply online_allServed
                              | vm_compute; reflexivity]|].
  assert (Page.trades
            (Page.page
               (snd (Page.fetchUserData Sample.online (Some Scenario.erin)
                       Scenario.closeMounted)))
          = [Page.tradeOf "e1" (Scenario.placedAt 0 "won") (Some Sample.game);
             Page.tradeOf "e2" (Scenario.placedAt 400000 "lost")
               (Some Sample.game)]) as Htrades
    by (vm_compute; reflexivity).
  assert (Spec.createdBefore
            (Page.tradeOf "e1" (Scenario.placedAt 0 "won") (Some Sample.game))
            (Page.tradeOf "e2" (Scenario.placedAt 400000 "lost")
               (Some Sample.game))) as Hbefore
    by (right; cbn; lia).
  eexists _, _. split; [exact Htrades|].
  split; [reflexivity|]. split; [reflexivity|]. split; [reflexivity|].
  split; [exact Hbefore|]. split; [vm_compute; reflexivity|].
  rewrite Htrades. intros Hsorted.
  apply StronglySorted_inv in Hsorted as [_ Hfirst].
  apply Forall_inv in Hfirst. exact (Hfirst Hbefore).
Qed.

(** * Further properties of the page *)

(** * More about the loader *)

Section LoaderTrace.
Variable outage : nat -> bool.

(** The loop sends a prefix of its requests, and all of them unless one
    of them fails. *)
Lemma fetchTrades_trace (userTrades : list string) :
  forall (tradesData : list Trade.t) (w : Page.World),
  exists sent : list Db.Request,
    let rw := Page.fetchTrades outage userTrades tradesData w in
    Page.requests (snd rw) = Page.requests w ++ sent
    /\ sent `prefix_of` Trace.tradeRequests (Page.db w) userTrades
    /\ ((forall n,
           length (Page.requests w) <= n
           < length (Page.requests w) + length sent ->
           outage n = false) ->
        sent = Trace.tradeRequests (Page.db w) userTrades).
Proof.
  induction userTrades as [|tradeId rest IH]; intros tradesData w.
  - exists []. cbn. now rewrite app_nil_r.
  - cbv zeta. rewrite fetchTrades_cons. cbn [Trace.tradeRequests].
    destruct (Db.docPath tradeId) as [tradeRef|].
    2:{ exists []. cbn [fst snd]. now rewrite app_nil_r. }
    rewrite getDoc_run. cbn [Db.docs Db.name].
    set (w1 := Page.sent (Db.Get ("trades", Db.key tradeRef)) w).
    assert (length (Page.requests w1) = length (Page.requests w) + 1) as Hw1
      by (unfold w1; cbn; now rewrite length_app).
    destruct (outage (length (Page.requests w))) eqn:Hout0.
    { exists [Db.Get ("trades", Db.key tradeRef)]. cbn [fst snd].
      split; [reflexivity|]. split; [apply prefix_cons, prefix_nil|].
      intros Hserved. rewrite Hserved in Hout0 by (cbn; lia). discriminate. }
    destruct (Db.tradeDocs (Page.db w) !! Db.key tradeRef) as [td|].
    + destruct (Db.docPath (TradeDoc.eventId td)) as [eventRef|].
      2:{ exists [Db.Get ("trades", Db.key tradeRef)]. cbn [fst snd].
          now split. }
      rewrite getDoc_run. cbn [Db.docs Db.name].
      set (w2 := Page.sent (Db.Get ("events", Db.key eventRef)) w1).
      assert (length (Page.requests w2) = length (Page.requests w) + 2) as Hw2
        by (unfold w2; cbn [Page.sent Page.requests];
            rewrite length_app, Hw1; cbn; lia).
      destruct (outage (length (Page.requests w1))) eqn:Hout1.
      { exists [Db.Get ("trades", Db.key tradeRef);
                Db.Get ("events", Db.key eventRef)]. cbn [fst snd].
        split; [cbn; now rewrite <- app_assoc|].
        split; [apply prefix_cons, prefix_cons, prefix_nil|].
        intros Hserved. rewrite Hw1, Hserved in Hout1 by (cbn; lia).
        discriminate. }
      destruct (IH (tradesData
                      ++ [Page.tradeOf (Db.docId tradeRef) td
                            (Db.eventDocs (Page.db w1) !! Db.key eventRef)])
                  w2)
        as (sent & Hreq & Hprefix & Hall).
      exists (Db.Get ("trades", Db.key tradeRef)
                :: Db.Get ("events", Db.key eventRef) :: sent).
      cbv zeta in Hreq, Hprefix, Hall.
      destruct (Page.fetchTrades outage rest _ w2) as [r w'].
      cbn [fst snd] in *. change (Page.db w2) with (Page.db w) in *.
      split; [rewrite Hreq; cbn; now rewrite <- !app_assoc|].
      split; [now apply prefix_cons, prefix_cons|].
      intros Hserved. rewrite Hall; [reflexivity|].
      intros n Hn. apply Hserved. cbn [length]. lia.
    + destruct (IH tradesData w1) as (sent & Hreq & Hprefix & Hall).
      exists (Db.Get ("trades", Db.key tradeRef) :: sent).
      cbv zeta in Hreq, Hprefix, Hall.
      destruct (Page.fetchTrades outage rest _ w1) as [r w'].
      cbn [fst snd] in *. change (Page.db w1) with (Page.db w) in *.
      split; [rewrite Hreq; cbn; now rewrite <- !app_assoc|].
      split; [now apply prefix_cons|].
      intros Hserved. rewrite Hall; [reflexivity|].
      intros n Hn. apply Hserved. cbn [length]. lia.
Qed.

(** The requests of a cycle: a prefix of its plan, and all of it unless one
    of them fails. *)
Lemma fetchUserData_trace (u : User) (w : Page.World) :
  exists sent : list Db.Request,
    Page.requests (snd (Page.fetchUserData outage (Some u) w))
    = Page.requests w ++ sent
    /\ sent `prefix_of` Trace.cycleRequests (Page.db w) u
    /\ (Spec.allServed outage w (snd (Page.fetchUserData outage (Some u) w)) ->
        sent = Trace.cycleRequests (Page.db w) u).
Proof.
  rewrite fetchUserData_eq. cbv zeta. unfold Trace.cycleRequests.
  destruct (outage (length (Page.requests w))) eqn:Hout0.
  { exists [Db.Get ("users", uid u)]. cbn.
    split; [reflexivity|]. split; [apply prefix_cons, prefix_nil|].
    intros Hserved. unfold Spec.allServed in Hserved. cbn in Hserved.
    rewrite length_app in Hserved. cbn in Hserved.
    rewrite Hserved in Hout0 by lia. discriminate. }
  destruct (Db.userDocs (Page.db w) !! uid u) as [userData|].
  2:{ exists [Db.Get ("users", uid u)]. cbn.
      auto using prefix_cons, prefix_nil. }
  set (w1 := Page.onPage _ (Page.sent _ w)).
  assert (length (Page.requests w1) = length (Page.requests w) + 1) as Hw1
    by (unfold w1; cbn; now rewrite length_app).
  destruct (fetchTrades_trace (JS.orEmpty (UserData.trades userData)) [] w1)
    as (sent & Hreq & Hprefix & Hall).
  cbv zeta in Hreq, Hprefix, Hall.
  destruct (Page.fetchTrades outage _ [] w1) as [r w2].
  cbn [fst snd] in *. change (Page.db w1) with (Page.db w) in *.
  exists (Db.Get ("users", uid u) :: sent).
  assert (Page.requests w2
          = Page.requests w ++ Db.Get ("users", uid u) :: sent) as Hreq2.
  { rewrite Hreq. unfold w1. cbn. now rewrite <- app_assoc. }
  assert (Spec.allServed outage w w2 ->
          Db.Get ("users", uid u) :: sent
          = Db.Get ("users", uid u)
              :: Trace.tradeRequests (Page.db w)
                   (JS.orEmpty (UserData.trades userData))) as Hplan.
  { unfold Spec.allServed. rewrite Hreq2, length_app. cbn [length].
    intros Hserved. rewrite Hall; [reflexivity|].
    intros n Hn. apply Hserved. lia. }
  destruct r as [l|e]; cbn [snd Page.requests Page.onPage];
    (split; [exact Hreq2|]; split; [now apply prefix_cons|exact Hplan]).
Qed.

End LoaderTrace.

Lemma tradeRequests_length (d : Db.t) (ids : list string) :
  Spec.refsBuilt d ids = true ->
  length (Trace.tradeRequests d ids)
  = length ids + length (List.filter (Spec.resolves d) ids).
Proof.
  induction ids as [|i rest IH]; [reflexivity|].
  cbn [Spec.refsBuilt Trace.tradeRequests List.filter].
  unfold Spec.resolves at 1, Spec.tradeOfId.
  destruct (Db.docPath i) as [below|]; [|discriminate].
  destruct (Db.tradeDocs d !! Db.key below) as [td|].
  - destruct (Db.docPath (TradeDoc.eventId td)); [|discriminate].
    intros Hbuilt. cbn. rewrite IH by exact Hbuilt. lia.
  - intros Hbuilt. cbn. now rewrite IH by exact Hbuilt.
Qed.

Lemma tradeRequests_gets (d : Db.t) (ids : list string) :
  forallb Trace.isGet (Trace.tradeRequests d ids) = true.
Proof.
  induction ids as [|i rest IH]; [reflexivity|].
  cbn [Trace.tradeRequests].
  destruct (Db.docPath i) as [below|]; [|reflexivity].
  destruct (Db.tradeDocs d !! Db.key below) as [td|]; [|exact IH].
  now destruct (Db.docPath (TradeDoc.eventId td)).
Qed.

Lemma cycleRequests_gets (d : Db.t) (u : User) :
  forallb Trace.isGet (Trace.cycleRequests d u) = true.
Proof.
  unfold Trace.cycleRequests. cbn.
  destruct (Db.userDocs d !! uid u); [apply tradeRequests_gets|reflexivity].
Qed.

Lemma orZero_not_NaN (x : option JS.number) : JS.isNaN (JS.orZero x) = false.
Proof.
  destruct x as [v|]; [|reflexivity]. cbn. unfold JS.truthy.
  destruct (JS.isNaN v) eqn:Hnan; [reflexivity|]. cbn.
  destruct (PrimFloat.eqb v 0); [reflexivity | exact Hnan].
Qed.

Lemma assemble_joined (d : Db.t) (ids : list string) :
  Forall
    (fun t =>
       exists (tradeId : string) (tradeData : TradeDoc.t),
         In tradeId ids
         /\ Spec.tradeOfId d tradeId = Some tradeData
         /\ t = Page.tradeOf (Spec.docIdOf tradeId) tradeData
                  (Spec.eventOfId d (TradeDoc.eventId tradeData)))
    (Spec.assemble d ids).
Proof.
  induction ids as [|i rest IH]; [constructor|]. cbn [Spec.assemble].
  assert (Forall
            (fun t =>
               exists (tradeId : string) (tradeData : TradeDoc.t),
                 In tradeId (i :: rest)
                 /\ Spec.tradeOfId d tradeId = Some tradeData
                 /\ t = Page.tradeOf (Spec.docIdOf tradeId) tradeData
                          (Spec.eventOfId d (TradeDoc.eventId tradeData)))
            (Spec.assemble d rest)) as Hrest.
  { eapply Forall_impl; [exact IH|].
    intros t (tradeId & td & Hin & Htd & Ht).
    exists tradeId, td. split; [now right | now split]. }
  destruct (Spec.tradeOfId d i) as [td|] eqn:Hdoc; [|exact Hrest].
  constructor; [|exact Hrest].
  exists i, td. split; [now left | now split].
Qed.

Section LoaderExtras.
Variable outage : nat -> bool.


(** X4.  A cycle whose requests are all served, for an account that
    exists, sends exactly that sequence, which ends at the first reference
    that cannot be built.  When every reference is built, that is one
    request for the user, one for each listed id and one more for each id
    that resolves. *)
Theorem served_cycle_requests (u : User) (w : Page.World)
    (userData : UserData.t) :
  let w' := snd (Page.fetchUserData outage (Some u) w) in
  let ids := JS.orEmpty (UserData.trades userData) in
  Spec.allServed outage w w' ->
  Db.userDocs (Page.db w) !! uid u = Some userData ->
  Page.requests w'
  = Page.requests w
    ++ Db.Get ("users", uid u) :: Trace.tradeRequests (Page.db w) ids
  /\ (Spec.refsBuilt (Page.db w) ids = true ->
      length (Page.requests w')
      = length (Page.requests w) + 1 + length ids
        + length (List.filter (Spec.resolves (Page.db w)) ids)).
Proof.
  intros w' ids Hserved Hdoc. subst w' ids.
  destruct (fetchUserData_trace outage u w) as (sent & Hreq & _ & Hall).
  specialize (Hall Hserved). unfold Trace.cycleRequests in Hall.
  rewrite Hdoc in Hall. subst sent.
  split; [exact Hreq|]. intros Hbuilt.
  rewrite Hreq, length_app. cbn [length].
  rewrite tradeRequests_length by exact Hbuilt. lia.
Qed.

(** X2.  A load cycle only reads: the documents of the backend are the
    same after it, and every request it sends is a read. *)
Theorem cycle_only_reads (user : option User) (w : Page.World) :
  let w' := snd (Page.fetchUserData outage user w) in
  Page.db w' = Page.db w
  /\ exists sent : list Db.Request,
       Page.requests w' = Page.requests w ++ sent
       /\ forallb Trace.isGet sent = true.
Proof.
  destruct user as [u|].
  - cbv zeta.
    destruct (fetchUserData_run outage u w) as (sent' & _ & Hdb & _).
    destruct (fetchUserData_trace outage u w) as (sent & Hreq & Hprefix & _).
    split; [exact Hdb|]. exists sent. split; [exact Hreq|].
    destruct Hprefix as [rest Hplan].
    pose proof (cycleRequests_gets (Page.db w) u) as Hgets.
    rewrite Hplan, forallb_app in Hgets.
    now apply andb_true_iff in Hgets.
  - cbn. split; [reflexivity|]. exists []. now rewrite app_nil_r.
Qed.

(** X18.  A cycle that meets a reference it cannot build, every fetch
    before it served, is aborted like one with a failed fetch: it resolves,
    sends the requests of its plan up to that reference and no other,
    publishes the balance of the account, ends the loading state and
    leaves the published trades as they were. *)
Theorem unbuilt_reference_aborts_cycle (u : User) (w : Page.World)
    (userData : UserData.t) :
  let rw := Page.fetchUserData outage (Some u) w in
  let ids := JS.orEmpty (UserData.trades userData) in
  Spec.allServed outage w (snd rw) ->
  Db.userDocs (Page.db w) !! uid u = Some userData ->
  Spec.refsBuilt (Page.db w) ids = false ->
  fst rw = Resolved tt
  /\ Page.requests (snd rw)
     = Page.requests w
       ++ Db.Get ("users", uid u) :: Trace.tradeRequests (Page.db w) ids
  /\ Page.page (snd rw)
     = Page.withLoading false
         (Page.withWalletBalance
            (JS.orZero (UserData.walletBalance userData)) (Page.page w))
  /\ Page.trades (Page.page (snd rw)) = Page.trades (Page.page w).
Proof.
  intros rw ids Hserved Hdoc Hbuilt. subst rw ids.
  destruct (fetchUserData_run outage u w) as (sent' & Hres & _).
  destruct (fetchUserData_trace outage u w) as (sent & Hreq & _ & Hall).
  specialize (Hall Hserved). unfold Trace.cycleRequests in Hall.
  rewrite Hdoc in Hall. subst sent.
  pose proof (fetchUserData_unbuilt outage u w userData Hserved Hdoc Hbuilt)
    as Hpage.
  cbv zeta in Hres, Hpage.
  split; [exact Hres|]. split; [exact Hreq|]. split; [exact Hpage|].
  now rewrite Hpage.
Qed.

(** X1.  A load cycle in which every request settles, served or failed,
    and any reference is refused or built, never rejects and ends the
    loading state; it leaves the dialog's open flag alone.  So after such a
    cycle the page does not render the loading skeleton: it shows the
    sign-in prompt without an identity and the main view with one.  (A
    request that never settles is no outcome of [Page.send]: the cycle then
    stays suspended at that request.) *)
Theorem settled_cycle_ends_loading (user : option User) (w : Page.World) :
  let rw := Page.fetchUserData outage user w in
  fst rw = Resolved tt
  /\ Page.loading (Page.page (snd rw)) = false
  /\ Page.isAddFundsModalOpen (Page.page (snd rw))
     = Page.isAddFundsModalOpen (Page.page w)
  /\ match Page.render user (Page.page (snd rw)) with
     | Page.LoadingSkeleton => False
     | Page.SignInPrompt => user = None
     | Page.MainView main =>
         is_Some user
         /\ Page.availableBalance main
            = Page.walletBalance (Page.page (snd rw))
     end.
Proof.
  destruct user as [u|]; [|cbn; auto].
  cbv zeta.
  destruct (fetchUserData_run outage u w) as (sent & Hres & _ & _ & Hcase).
  cbv zeta in Hcase.
  assert (Page.loading (Page.page (snd (Page.fetchUserData outage (Some u) w)))
          = false
          /\ Page.isAddFundsModalOpen
               (Page.page (snd (Page.fetchUserData outage (Some u) w)))
             = Page.isAddFundsModalOpen (Page.page w)) as [Hloading Hflag].
  { destruct (outage (length (Page.requests w))).
    - destruct Hcase as [_ ->]. now split.
    - destruct (Db.userDocs (Page.db w) !! uid u).
      + destruct Hcase
          as [(_ & _ & ->)|[(k & _ & _ & _ & ->)|(_ & _ & ->)]]; now split.
      + destruct Hcase as [_ ->]. now split. }
  split; [exact Hres|]. split; [exact Hloading|]. split; [exact Hflag|].
  unfold Page.render. rewrite Hloading. cbn. split; [eauto|reflexivity].
Qed.

(** X6.  A load cycle never publishes not-a-number as the balance: when
    the balance was a number before the cycle it is one after it, because a
    stored balance that is missing, 0 or NaN is published as 0. *)
Theorem cycle_keeps_balance_a_number (user : option User) (w : Page.World) :
  JS.isNaN (Page.walletBalance (Page.page w)) = false ->
  JS.isNaN
    (Page.walletBalance (Page.page (snd (Page.fetchUserData outage user w))))
  = false.
Proof.
  intros Hnum. destruct user as [u|]; [|exact Hnum].
  destruct (fetchUserData_run outage u w) as (sent & _ & _ & _ & Hcase).
  cbv zeta in Hcase.
  destruct (outage (length (Page.requests w))).
  - destruct Hcase as [_ ->]. exact Hnum.
  - destruct (Db.userDocs (Page.db w) !! uid u).
    + destruct Hcase
        as [(_ & _ & ->)|[(k & _ & _ & _ & ->)|(_ & _ & ->)]];
        apply orZero_not_NaN.
    + destruct Hcase as [_ ->]. exact Hnum.
Qed.


(** X8.  After a successful cycle, trades created within the same
    millisecond are published in the order in which the account lists
    them. *)
Theorem equal_instants_keep_listing_order (u : User) (w : Page.World)
    (userData : UserData.t) (instant : Z) :
  let w' := snd (Page.fetchUserData outage (Some u) w) in
  Spec.allServed outage w w' ->
  Db.userDocs (Page.db w) !! uid u = Some userData ->
  Spec.refsBuilt (Page.db w) (JS.orEmpty (UserData.trades userData)) = true ->
  List.filter (fun t => (Spec.createdMs t =? instant)%Z)
    (Page.trades (Page.page w'))
  = List.filter (fun t => (Spec.createdMs t =? instant)%Z)
      (Spec.assemble (Page.db w) (JS.orEmpty (UserData.trades userData))).
Proof.
  intros w' Hserved Hdoc Hbuilt. subst w'.
  rewrite (fetchUserData_served outage u w userData Hserved Hdoc Hbuilt). cbn.
  apply (sort_stable Page.newestFirst Spec.createdMs newestFirst_key).
Qed.

(** X7.  After a successful cycle every published trade is the join of
    the trade document of a listed id with the event document of that
    trade's [eventId]: its event is the stored one (or none), and its card
    names the selected side's team of that event, with that team's logo. *)
Theorem published_trades_are_joined (u : User) (w : Page.World)
    (userData : UserData.t) :
  let w' := snd (Page.fetchUserData outage (Some u) w) in
  let ids := JS.orEmpty (UserData.trades userData) in
  Spec.allServed outage w w' ->
  Db.userDocs (Page.db w) !! uid u = Some userData ->
  Spec.refsBuilt (Page.db w) ids = true ->
  Forall
    (fun t =>
       (exists (tradeId : string) (tradeData : TradeDoc.t),
          In tradeId ids
          /\ Spec.tradeOfId (Page.db w) tradeId = Some tradeData
          /\ t = Page.tradeOf (Spec.docIdOf tradeId) tradeData
                   (Spec.eventOfId (Page.db w) (TradeDoc.eventId tradeData)))
       /\ Trade.event t = Spec.eventOfId (Page.db w) (Trade.eventId t)
       /\ match Spec.eventOfId (Page.db w) (Trade.eventId t) with
          | Some e =>
              let team := Page.selected (Trade.selectedTeam t) e in
              Page.teamLabel (Page.card t) = Event.full_name team
              /\ Page.logo (Page.card t)
                 = Some {| Page.abbreviation := Event.abbreviation team;
                           Page.teamName := Event.full_name team |}
          | None =>
              Page.teamLabel (Page.card t) = "Unknown Team"
              /\ Page.logo (Page.card t) = None
          end)
    (Page.trades (Page.page w')).
Proof.
  intros w' ids Hserved Hdoc Hbuilt. subst w' ids.
  rewrite (fetchUserData_served outage u w userData Hserved Hdoc Hbuilt). cbn.
  rewrite (sort_Permutation Page.newestFirst).
  eapply Forall_impl; [apply assemble_joined|].
  intros t (tradeId & td & Hin & Htd & Ht). split; [eauto|].
  rewrite Ht. cbn. split; [reflexivity|].
  now destruct (Spec.eventOfId (Page.db w) (TradeDoc.eventId td)).
Qed.

End LoaderExtras.

(** X9.  What a successful cycle publishes depends on the backend only: from
    two page states over the same documents, with the same dialog flag, the
    page states after the cycle are equal, whatever trades, balance and
    loading flag were there before.  In particular a reload changes
    nothing. *)
Theorem served_cycle_depends_on_backend_only
    (outage1 outage2 : nat -> bool) (u : User) (w1 w2 : Page.World)
    (userData : UserData.t) :
  Page.db w1 = Page.db w2 ->
  Page.isAddFundsModalOpen (Page.page w1)
  = Page.isAddFundsModalOpen (Page.page w2) ->
  Spec.allServed outage1 w1 (snd (Page.fetchUserData outage1 (Some u) w1)) ->
  Spec.allServed outage2 w2 (snd (Page.fetchUserData outage2 (Some u) w2)) ->
  Db.userDocs (Page.db w1) !! uid u = Some userData ->
  Spec.refsBuilt (Page.db w1) (JS.orEmpty (UserData.trades userData)) = true ->
  Page.page (snd (Page.fetchUserData outage1 (Some u) w1))
  = Page.page (snd (Page.fetchUserData outage2 (Some u) w2)).
Proof.
  intros Hdb Hflag Hserved1 Hserved2 Hdoc Hbuilt.
  rewrite (fetchUserData_served outage1 u w1 userData Hserved1 Hdoc Hbuilt).
  rewrite Hdb in Hdoc, Hbuilt.
  rewrite (fetchUserData_served outage2 u w2 userData Hserved2 Hdoc Hbuilt).
  rewrite Hdb. unfold Page.withLoading, Page.withTrades, Page.withWalletBalance.
  cbn. now rewrite Hflag.
Qed.

(** * More about the dialog *)

(** What a submit does, without observers. *)
Lemma handleSubmit_run {S : Type}
    (onAddFunds : JS.number -> Async S unit) (onClose : Async S unit)
    (m : AddFundsModal.State) (s : S) :
  AddFundsModal.handleSubmit onAddFunds onClose (m, s) =
  if Spec.validAmount (AddFundsModal.amount m) then
    match onAddFunds (JS.parseFloat (AddFundsModal.amount m)) s with
    | (Resolved _, s1) =>
        match onClose s1 with
        | (Resolved _, s2) => (Resolved tt, (AddFundsModal.initial, s2))
        | (Rejected _, s2) =>
            (Resolved tt,
             ({| AddFundsModal.amount := AddFundsModal.amount m;
                 AddFundsModal.isLoading := false;
                 AddFundsModal.error :=
                   "Failed to add funds. Please try again." |}, s2))
        end
    | (Rejected _, s1) =>
        (Resolved tt,
         ({| AddFundsModal.amount := AddFundsModal.amount m;
             AddFundsModal.isLoading := false;
             AddFundsModal.error :=
               "Failed to add funds. Please try again." |}, s1))
    end
  else
    (Resolved tt,
     ({| AddFundsModal.amount := AddFundsModal.amount m;
         AddFundsModal.isLoading := false;
         AddFundsModal.error := "Please enter a valid amount" |}, s)).
Proof.
  unfold Spec.validAmount. run_async.
  destruct (JS.isNaN _ || PrimFloat.leb _ 0)%bool; cbn; [reflexivity|].
  destruct (onAddFunds _ s) as [[[]|e] s1]; cbn; [|reflexivity].
  destruct (onClose s1) as [[[]|e] s2]; reflexivity.
Qed.

(** X13.  A submit whose callbacks settle, each resolving or rejecting,
    never rejects and leaves the submitting state; and it does not depend
    on the message or the submitting flag left by an earlier submit.  (A
    callback that never settles is no outcome of an [Async]: the submit
    then stays suspended in the submitting state.) *)
Theorem settled_submit_ends_submitting {S : Type}
    (onAddFunds : JS.number -> Async S unit) (onClose : Async S unit)
    (m : AddFundsModal.State) (s : S) (busy : bool) (stale : string) :
  let rw := AddFundsModal.handleSubmit onAddFunds onClose (m, s) in
  fst rw = Resolved tt
  /\ AddFundsModal.isLoading (fst (snd rw)) = false
  /\ AddFundsModal.handleSubmit onAddFunds onClose
       ({| AddFundsModal.amount := AddFundsModal.amount m;
           AddFundsModal.isLoading := busy;
           AddFundsModal.error := stale |}, s)
     = rw.
Proof.
  cbv zeta. rewrite !handleSubmit_run. cbn [AddFundsModal.amount].
  destruct (Spec.validAmount (AddFundsModal.amount m)); [|auto].
  destruct (onAddFunds _ s) as [[[]|e] s1]; [|auto].
  destruct (onClose s1) as [[[]|e] s2]; auto.
Qed.

(** X15.  Cancel only closes: after typing an amount, cancelling and
    reopening, the dialog shows the typed amount and the message the last
    submit left; neither typing nor Cancel clears it, and the page is
    otherwise unchanged. *)
Theorem cancel_keeps_amount_and_message
    (u : User) (m : AddFundsModal.State) (w : Page.World) (typed : string) :
  let s1 := snd (AddFundsView.handleChange typed (m, w)) in
  let s2 :=
    snd (AddFundsView.handleCancel (Page.setIsAddFundsModalOpen false) s1) in
  let s3 := snd (AddFundsView.openAddFunds s2) in
  Page.loading (Page.page w) = false ->
  AddFundsView.shown (Some u) s2 = None
  /\ AddFundsView.shown (Some u) s3
     = Some {| AddFundsView.inputValue := typed;
               AddFundsView.errorLine :=
                 if String.eqb (AddFundsModal.error m) "" then None
                 else Some (AddFundsModal.error m);
               AddFundsView.submitDisabled := AddFundsModal.isLoading m;
               AddFundsView.submitLabel :=
                 if AddFundsModal.isLoading m then "Adding..."
                 else "Add Funds" |}
  /\ snd s3 = Page.onPage (Page.withIsAddFundsModalOpen true) w.
Proof.
  intros s1 s2 s3 Hloaded. subst s1 s2 s3.
  unfold AddFundsView.shown, Page.render. cbn. rewrite Hloaded. cbn.
  repeat split.
Qed.

(** * More about the balance update *)

(** The assembled list does not read the user documents. *)
Lemma assemble_users_irrelevant (d : Db.t) (users : gmap string UserData.t)
    (ids : list string) :
  Spec.assemble (Db.setDocs Db.users users d) ids = Spec.assemble d ids.
Proof.
  induction ids as [|i rest IH]; [reflexivity|].
  cbn [Spec.assemble]. rewrite IH.
  unfold Spec.tradeOfId, Spec.eventOfId. now destruct d.
Qed.

Lemma refsBuilt_users_irrelevant (d : Db.t) (users : gmap string UserData.t)
    (ids : list string) :
  Spec.refsBuilt (Db.setDocs Db.users users d) ids = Spec.refsBuilt d ids.
Proof.
  induction ids as [|i rest IH]; [reflexivity|].
  cbn [Spec.refsBuilt]. rewrite IH. now destruct d.
Qed.

Section BalanceExtras.
Variable outage : nat -> bool.


(** X11.  A second addition adds to the balance its handler was created
    with.  Through the handler of the render that followed the first
    addition it accumulates: the in-memory balance and the stored one are
    the first balance plus the first amount plus the second.  Through the
    handler the first call went through, created before the first addition,
    it writes the first balance plus the second amount, and the first
    amount is lost.  Either way two updates were sent. *)
Theorem second_add_uses_its_renders_balance (u : User)
    (first second : JS.number) (w : Page.World) (data : UserData.t) :
  let balance := Page.walletBalance (Page.page w) in
  let w1 := snd (Page.handleAddFundsOf outage balance (Some u) first w) in
  let fresh :=
    snd (Page.handleAddFundsOf outage (Page.walletBalance (Page.page w1))
           (Some u) second w1) in
  let stale := snd (Page.handleAddFundsOf outage balance (Some u) second w1) in
  let total := PrimFloat.add (PrimFloat.add balance first) second in
  let overwritten := PrimFloat.add balance second in
  outage (length (Page.requests w)) = false ->
  outage (S (length (Page.requests w))) = false ->
  Db.userDocs (Page.db w) !! uid u = Some data ->
  Page.walletBalance (Page.page w1) = PrimFloat.add balance first
  /\ fresh = snd (Page.handleAddFunds outage (Some u) second w1)
  /\ Page.walletBalance (Page.page fresh) = total
  /\ Db.userDocs (Page.db fresh) !! uid u
     = Some (Page.walletBalanceField total data)
  /\ Page.walletBalance (Page.page stale) = overwritten
  /\ Db.userDocs (Page.db stale) !! uid u
     = Some (Page.walletBalanceField overwritten data)
  /\ Page.requests fresh
     = Page.requests w
       ++ [Db.Update ("users", uid u); Db.Update ("users", uid u)]
  /\ Page.requests stale = Page.requests fresh.
Proof.
  intros balance w1 fresh stale total overwritten Hout0 Hout1 Hdoc.
  subst fresh stale w1 total overwritten balance.
  unfold Page.handleAddFunds.
  rewrite (handleAddFundsOf_run outage _ (Some u) first w). cbv zeta.
  rewrite updateDoc_users_run. cbv zeta. rewrite Hout0, Hdoc. cbn [snd].
  rewrite !handleAddFundsOf_run. cbv zeta.
  rewrite !updateDoc_users_run. cbv zeta. cbn.
  rewrite length_app. cbn. rewrite Nat.add_1_r, Hout1.
  rewrite lookup_insert_eq. cbn. rewrite !lookup_insert_eq.
  rewrite <- app_assoc. repeat split.
Qed.

(** X12.  Write, then read: a served load cycle after a successful
    addition publishes the balance that was stored, passed through [|| 0],
    so that a stored NaN is shown as 0 while it stays in the backend; and
    when every reference of the cycle is built it publishes the same trades
    as a cycle before the addition. *)
Theorem reload_after_add_shows_stored_balance (u : User) (amount : JS.number)
    (w : Page.World) (data : UserData.t) :
  let newBalance := PrimFloat.add (Page.walletBalance (Page.page w)) amount in
  let w1 := snd (Page.handleAddFunds outage (Some u) amount w) in
  let w2 := snd (Page.fetchUserData outage (Some u) w1) in
  let ids := JS.orEmpty (UserData.trades data) in
  outage (length (Page.requests w)) = false ->
  Db.userDocs (Page.db w) !! uid u = Some data ->
  Spec.allServed outage w1 w2 ->
  Db.userDocs (Page.db w2) !! uid u
  = Some (Page.walletBalanceField newBalance data)
  /\ Page.walletBalance (Page.page w2) = JS.orZero (Some newBalance)
  /\ (Spec.refsBuilt (Page.db w) ids = true ->
      Page.trades (Page.page w2)
      = JS.sort Page.newestFirst (Spec.assemble (Page.db w) ids)).
Proof.
  intros newBalance w1 w2 ids Hout0 Hdoc Hserved. subst ids.
  assert (Page.db w1
          = Db.setDocs Db.users
              (<[uid u := Page.walletBalanceField newBalance data]>
                 (Db.userDocs (Page.db w))) (Page.db w)) as Hdb1.
  { subst w1. rewrite handleAddFunds_run. cbv zeta.
    rewrite updateDoc_users_run. cbv zeta. now rewrite Hout0, Hdoc. }
  assert (Db.userDocs (Page.db w1) !! uid u
          = Some (Page.walletBalanceField newBalance data)) as Hdoc1.
  { rewrite Hdb1. cbn. apply lookup_insert_eq. }
  assert (Spec.refsBuilt (Page.db w1)
            (JS.orEmpty
               (UserData.trades (Page.walletBalanceField newBalance data)))
          = Spec.refsBuilt (Page.db w) (JS.orEmpty (UserData.trades data)))
    as Hsame by (rewrite Hdb1; apply refsBuilt_users_irrelevant).
  destruct (fetchUserData_run outage u w1) as (sent & _ & Hdb2 & _).
  fold w2 in Hdb2. cbv zeta in Hdb2.
  split; [rewrite Hdb2; exact Hdoc1|].
  destruct (Spec.refsBuilt (Page.db w) (JS.orEmpty (UserData.trades data)))
    eqn:Hbuilt.
  - pose proof (fetchUserData_served outage u w1 _ Hserved Hdoc1 Hsame)
      as Hpage.
    fold w2 in Hpage. rewrite Hpage. cbn.
    split; [reflexivity|]. intros _.
    now rewrite Hdb1, assemble_users_irrelevant.
  - pose proof (fetchUserData_unbuilt outage u w1 _ Hserved Hdoc1 Hsame)
      as Hpage.
    fold w2 in Hpage. rewrite Hpage. cbn.
    split; [reflexivity | discriminate].
Qed.

(** X14.  The dialog on the page, end to end: a submit with a valid
    amount whose write is served adds the parsed amount to the in-memory and
    the stored balance with one update request, closes the dialog and resets
    its form. *)
Theorem valid_submit_adds_and_closes (u : User) (m : AddFundsModal.State)
    (w : Page.World) (data : UserData.t) :
  let newBalance :=
    PrimFloat.add (Page.walletBalance (Page.page w))
      (JS.parseFloat (AddFundsModal.amount m)) in
  Spec.validAmount (AddFundsModal.amount m) = true ->
  outage (length (Page.requests w)) = false ->
  Db.userDocs (Page.db w) !! uid u = Some data ->
  let '(r, (m', w')) := Page.submitAddFunds outage (Some u) (m, w) in
  r = Resolved tt
  /\ m' = AddFundsModal.initial
  /\ Page.walletBalance (Page.page w') = newBalance
  /\ Db.userDocs (Page.db w') !! uid u
     = Some (Page.walletBalanceField newBalance data)
  /\ Page.isAddFundsModalOpen (Page.page w') = false
  /\ Page.requests w' = Page.requests w ++ [Db.Update ("users", uid u)].
Proof.
  intros newBalance Hvalid Hout0 Hdoc.
  unfold Page.submitAddFunds. rewrite handleSubmit_run, Hvalid.
  rewrite handleAddFunds_run. cbv zeta.
  rewrite updateDoc_users_run. cbv zeta. rewrite Hout0, Hdoc. cbn.
  repeat split. apply lookup_insert_eq.
Qed.

End BalanceExtras.

(** * The logo of a team *)

Lemma probed_run (response : Outcome bool) (imageExists : bool) :
  TeamLogo.probed response imageExists =
  (Resolved tt,
   match response with
   | Resolved true => imageExists
   | _ => false
   end).
Proof. now destruct response as [[|]|e]. Qed.

Lemma lifecycle_from (assets : string -> Outcome bool)
    (abbreviations : list string) (imageExists : bool) :
  foldl (fun shown a => snd (TeamLogo.effect assets a shown)) imageExists
    abbreviations
  = (imageExists
     && forallb
          (fun a =>
             match assets (TeamLogo.logoPath a) with
             | Resolved true => true
             | _ => false
             end) abbreviations)%bool.
Proof.
  revert imageExists.
  induction abbreviations as [|a rest IH]; intros imageExists; cbn.
  - now rewrite andb_true_r.
  - rewrite IH. unfold TeamLogo.effect. rewrite probed_run. cbn.
    destruct (assets (TeamLogo.logoPath a)) as [[|]|e]; cbn;
      now rewrite ?andb_false_r.
Qed.

(** X16.  A team logo is rendered exactly while every probe so far found
    its image: one probe that is rejected or answered with a status that is
    not ok hides the logo for good, also after the abbreviation changes to
    one whose image exists.  The image rendered is the one at the probed
    address of the current abbreviation. *)
Theorem logo_shown_while_every_probe_succeeded
    (assets : string -> Outcome bool) (abbreviations : list string)
    (props : Page.TeamLogo) :
  let allFound :=
    forallb
      (fun a =>
         match assets (TeamLogo.logoPath a) with
         | Resolved true => true
         | _ => false
         end) abbreviations in
  TeamLogo.lifecycle assets abbreviations = allFound
  /\ TeamLogo.render props (TeamLogo.lifecycle assets abbreviations)
     = if allFound
       then Some {| TeamLogo.src :=
                      TeamLogo.logoPath (Page.abbreviation props);
                    TeamLogo.alt := (Page.teamName props ++ " logo")%string;
                    TeamLogo.width := 32; TeamLogo.height := 32 |}
       else None.
Proof.
  cbv zeta. unfold TeamLogo.lifecycle. rewrite lifecycle_from. cbn.
  split; [reflexivity|]. unfold TeamLogo.render.
  now destruct (forallb _ abbreviations).
Qed.

(** * Badges *)

(** X17.  The red badge is not the same as a counted loss: the number of
    red badges is the number of losses plus the number of trades whose status
    is none of pending, won and lost. *)
Theorem red_badges_are_losses_and_unknown (trades : list Trade.t) :
  length (List.filter Trace.isRed (map Page.card trades))
  = Page.losses trades + length (List.filter Trace.unknownStatus trades).
Proof.
  unfold Page.losses.
  induction trades as [|t rest IH]; [reflexivity|].
  cbn [map List.filter]. unfold Trace.isRed at 1, Trace.unknownStatus at 1.
  cbn [Page.card Page.badge].
  destruct (String.eqb_spec (Trade.status t) "pending") as [Hp|Hp];
    destruct (String.eqb_spec (Trade.status t) "won") as [Hw|Hw];
    destruct (String.eqb_spec (Trade.status t) "lost") as [Hl|Hl];
    try (rewrite Hp in *; discriminate);
    try (rewrite Hw in *; discriminate);
    cbn; rewrite IH; lia.
Qed.

(** * The extras on the sample backend *)

(** Alice's cycle sends eight requests: 1 + 4 ids + 3 that resolve.
    Dan's sends four: it ends at the event of [d2], whose reference cannot
    be built. *)
Lemma served_cycle_requests_witness :
  let w' :=
    snd (Page.fetchUserData Sample.online (Some Sample.alice) Sample.mounted) in
  let dan' :=
    snd (Page.fetchUserData Sample.online (Some Scenario.dan)
           Scenario.danMounted) in
  (Spec.allServed Sample.online Sample.mounted w'
   /\ Db.userDocs (Page.db Sample.mounted) !! "alice" = Some Sample.aliceData
   /\ Spec.refsBuilt Sample.db ["t3"; "ghost"; "t1"; "t2"] = true)
  /\ Page.requests w'
     = [Db.Get ("users", "alice");
        Db.Get ("trades", "t3"); Db.Get ("events", "g1");
        Db.Get ("trades", "ghost");
        Db.Get ("trades", "t1"); Db.Get ("events", "g1");
        Db.Get ("trades", "t2"); Db.Get ("events", "g0")]
  /\ length (Page.requests w') = 0 + 1 + 4 + 3
  /\ (Spec.allServed Sample.online Scenario.danMounted dan'
      /\ Db.userDocs Scenario.danDb !! "dan" = Some Scenario.danData
      /\ Spec.refsBuilt Scenario.danDb ["d1"; "d2"] = false)
  /\ Page.requests dan'
     = [Db.Get ("users", "dan");
        Db.Get ("trades", "d1"); Db.Get ("events", "g1");
        Db.Get ("trades", "d2")].
Proof.
  cbv zeta.
  assert (Db.userDocs (Page.db Sample.mounted) !! uid Sample.alice
          = Some Sample.aliceData) as Hdoc by (vm_compute; reflexivity).
  assert (Spec.refsBuilt (Page.db Sample.mounted)
            (JS.orEmpty (UserData.trades Sample.aliceData)) = true) as Hbuilt
    by (vm_compute; reflexivity).
  assert (Db.userDocs (Page.db Scenario.danMounted) !! uid Scenario.dan
          = Some Scenario.danData) as Hdan by (vm_compute; reflexivity).
  split; [repeat split; solve [apply online_allServed | assumption]|].
  destruct (served_cycle_requests Sample.online Sample.alice Sample.mounted
              Sample.aliceData (online_allServed _ _) Hdoc) as [Hreq Hlen].
  destruct (served_cycle_requests Sample.online Scenario.dan
              Scenario.danMounted Scenario.danData (online_allServed _ _)
              Hdan) as [Hreqs _].
  split; [rewrite Hreq; vm_compute; reflexivity|].
  split; [rewrite (Hlen Hbuilt); vm_compute; reflexivity|].
  split; [repeat split; solve [apply online_allServed | assumption
                              | vm_compute; reflexivity]|].
  rewrite Hreqs. vm_compute. reflexivity.
Defined.

(** Dan's cycle stops at the event of [d2]: his balance of 20 is shown and
    no trade. *)
Lemma unbuilt_reference_aborts_cycle_witness :
  let w' :=
    snd (Page.fetchUserData Sample.online (Some Scenario.dan)
           Scenario.danMounted) in
  (Spec.allServed Sample.online Scenario.danMounted w'
   /\ Db.userDocs Scenario.danDb !! "dan" = Some Scenario.danData
   /\ Spec.refsBuilt Scenario.danDb ["d1"; "d2"] = false)
  /\ Page.requests w'
     = [Db.Get ("users", "dan");
        Db.Get ("trades", "d1"); Db.Get ("events", "g1");
        Db.Get ("trades", "d2")]
  /\ Page.walletBalance (Page.page w') = 20%float
  /\ Page.loading (Page.page w') = false
  /\ Page.trades (Page.page w') = [].
Proof.
  cbv zeta.
  assert (Db.userDocs (Page.db Scenario.danMounted) !! uid Scenario.dan
          = Some Scenario.danData) as Hdoc by (vm_compute; reflexivity).
  assert (Spec.refsBuilt (Page.db Scenario.danMounted)
            (JS.orEmpty (UserData.trades Scenario.danData)) = false)
    as Hbuilt by (vm_compute; reflexivity).
  split; [repeat split; solve [apply online_allServed | assumption]|].
  destruct (unbuilt_reference_aborts_cycle Sample.online Scenario.dan
              Scenario.danMounted Scenario.danData (online_allServed _ _)
              Hdoc Hbuilt)
    as (_ & Hreq & Hpage & Htrades).
  rewrite Hreq, Htrades, Hpage. repeat split; vm_compute; reflexivity.
Defined.

(** A failed cycle from the freshly mounted page. *)
Lemma cycle_keeps_balance_a_number_witness :
  JS.isNaN (Page.walletBalance (Page.page Sample.mounted)) = false
  /\ JS.isNaN
       (Page.walletBalance
          (Page.page
             (snd (Page.fetchUserData (Sample.failingAt 1)
                     (Some Sample.alice) Sample.mounted))))
     = false.
Proof.
  split; [reflexivity|].
  exact (cycle_keeps_balance_a_number (Sample.failingAt 1) (Some Sample.alice)
           Sample.mounted eq_refl).
Defined.


(** Carol's trades [a] and [c] share an instant and stay in that order. *)
Lemma equal_instants_keep_listing_order_witness :
  let w' :=
    snd (Page.fetchUserData Sample.online (Some Scenario.carol)
           Scenario.tiedMounted) in
  (Spec.allServed Sample.online Scenario.tiedMounted w'
   /\ Db.userDocs (Page.db Scenario.tiedMounted) !! "carol"
      = Some Scenario.carolData
   /\ Spec.refsBuilt Scenario.tiedDb ["a"; "b"; "c"] = true)
  /\ map Trade.id (Page.trades (Page.page w')) = ["b"; "a"; "c"]
  /\ map Trade.id
       (List.filter (fun t => (Spec.createdMs t =? Sample.daysAgo 2)%Z)
          (Page.trades (Page.page w')))
     = ["a"; "c"].
Proof.
  cbv zeta.
  assert (Db.userDocs (Page.db Scenario.tiedMounted) !! uid Scenario.carol
          = Some Scenario.carolData) as Hdoc by (vm_compute; reflexivity).
  assert (Spec.refsBuilt (Page.db Scenario.tiedMounted)
            (JS.orEmpty (UserData.trades Scenario.carolData)) = true)
    as Hbuilt by (vm_compute; reflexivity).
  split; [repeat split; solve [apply online_allServed | assumption]|].
  split; [vm_compute; reflexivity|].
  rewrite (equal_instants_keep_listing_order Sample.online Scenario.carol
             Scenario.tiedMounted Scenario.carolData (Sample.daysAgo 2)
             (online_allServed _ _) Hdoc Hbuilt).
  vm_compute. reflexivity.
Defined.

(** The labels of Alice's three cards. *)
Lemma published_trades_are_joined_witness :
  let w' :=
    snd (Page.fetchUserData Sample.online (Some Sample.alice) Sample.mounted) in
  (Spec.allServed Sample.online Sample.mounted w'
   /\ Db.userDocs (Page.db Sample.mounted) !! "alice" = Some Sample.aliceData
   /\ Spec.refsBuilt Sample.db ["t3"; "ghost"; "t1"; "t2"] = true)
  /\ Forall
       (fun t => Trade.event t = Spec.eventOfId Sample.db (Trade.eventId t))
       (Page.trades (Page.page w'))
  /\ map (fun t => Page.teamLabel (Page.card t)) (Page.trades (Page.page w'))
     = ["Los Angeles Lakers"; "Unknown Team"; "Los Angeles Lakers"].
Proof.
  cbv zeta.
  assert (Db.userDocs (Page.db Sample.mounted) !! uid Sample.alice
          = Some Sample.aliceData) as Hdoc by (vm_compute; reflexivity).
  assert (Spec.refsBuilt (Page.db Sample.mounted)
            (JS.orEmpty (UserData.trades Sample.aliceData)) = true) as Hbuilt
    by (vm_compute; reflexivity).
  split; [repeat split; solve [apply online_allServed | assumption]|].
  split; [|vm_compute; reflexivity].
  eapply Forall_impl;
    [exact (published_trades_are_joined Sample.online Sample.alice
              Sample.mounted Sample.aliceData (online_allServed _ _) Hdoc
              Hbuilt)|].
  intros t (_ & Hevent & _). exact Hevent.
Defined.

(** Reloading Alice's profile changes nothing. *)
Lemma served_cycle_depends_on_backend_only_witness :
  (Page.db Sample.mounted = Page.db Sample.loaded
   /\ Page.isAddFundsModalOpen (Page.page Sample.mounted)
      = Page.isAddFundsModalOpen (Page.page Sample.loaded)
   /\ Db.userDocs (Page.db Sample.mounted) !! "alice" = Some Sample.aliceData
   /\ Spec.refsBuilt Sample.db ["t3"; "ghost"; "t1"; "t2"] = true)
  /\ Page.page Sample.loaded
     = Page.page
         (snd (Page.fetchUserData Sample.online (Some Sample.alice)
                 Sample.loaded)).
Proof.
  assert (Page.db Sample.mounted = Page.db Sample.loaded) as Hdb
    by (vm_compute; reflexivity).
  assert (Db.userDocs (Page.db Sample.mounted) !! uid Sample.alice
          = Some Sample.aliceData) as Hdoc by (vm_compute; reflexivity).
  assert (Spec.refsBuilt (Page.db Sample.mounted)
            (JS.orEmpty (UserData.trades Sample.aliceData)) = true) as Hbuilt
    by (vm_compute; reflexivity).
  split; [split; [exact Hdb | split; [reflexivity | split; assumption]]|].
  exact (served_cycle_depends_on_backend_only Sample.online Sample.online
           Sample.alice Sample.mounted Sample.loaded Sample.aliceData
           Hdb eq_refl (online_allServed _ _) (online_allServed _ _) Hdoc
           Hbuilt).
Defined.

(** From Alice's balance of 100: 25.5 and then 4.5 through the handler of
    the new render make 130; 4.5 through the first handler makes 104.5. *)
Lemma second_add_uses_its_renders_balance_witness :
  let w1 :=
    snd (Page.handleAddFundsOf Sample.online 100%float (Some Sample.alice)
           25.5%float Sample.loaded) in
  let fresh :=
    snd (Page.handleAddFundsOf Sample.online 125.5%float (Some Sample.alice)
           4.5%float w1) in
  let stale :=
    snd (Page.handleAddFundsOf Sample.online 100%float (Some Sample.alice)
           4.5%float w1) in
  (Sample.online (length (Page.requests Sample.loaded)) = false
   /\ Sample.online (S (length (Page.requests Sample.loaded))) = false
   /\ Db.userDocs (Page.db Sample.loaded) !! "alice" = Some Sample.aliceData)
  /\ Page.walletBalance (Page.page Sample.loaded) = 100%float
  /\ Page.walletBalance (Page.page w1) = 125.5%float
  /\ Page.walletBalance (Page.page fresh) = 130%float
  /\ UserData.walletBalance <$> Db.userDocs (Page.db fresh) !! "alice"
     = Some (Some 130%float)
  /\ Page.walletBalance (Page.page stale) = 104.5%float
  /\ UserData.walletBalance <$> Db.userDocs (Page.db stale) !! "alice"
     = Some (Some 104.5%float).
Proof.
  cbv zeta.
  assert (Db.userDocs (Page.db Sample.loaded) !! uid Sample.alice
          = Some Sample.aliceData) as Hdoc by (vm_compute; reflexivity).
  split; [split; [reflexivity | split; [reflexivity | exact Hdoc]]|].
  destruct (second_add_uses_its_renders_balance Sample.online Sample.alice
              25.5%float 4.5%float Sample.loaded Sample.aliceData eq_refl
              eq_refl Hdoc)
    as (Hfirst & _ & Hfresh & Hstored & Hstale & Hlost & _).
  change (uid Sample.alice) with "alice" in Hstored, Hlost.
  change (Page.walletBalance (Page.page Sample.loaded)) with 100%float
    in Hfirst, Hfresh, Hstored, Hstale, Hlost.
  change (Page.walletBalance
            (Page.page
               (snd (Page.handleAddFundsOf Sample.online 100%float
                       (Some Sample.alice) 25.5%float Sample.loaded))))
    with 125.5%float in Hfresh, Hstored.
  rewrite Hfresh, Hstored, Hstale, Hlost.
  repeat split; vm_compute; reflexivity.
Defined.

(** NaN is added, stored, and shown as 0 after the reload. *)
Lemma reload_after_add_shows_stored_balance_witness :
  let w1 :=
    snd (Page.handleAddFunds Sample.online (Some Sample.alice) PrimFloat.nan
           Sample.loaded) in
  let w2 := snd (Page.fetchUserData Sample.online (Some Sample.alice) w1) in
  (Sample.online (length (Page.requests Sample.loaded)) = false
   /\ Db.userDocs (Page.db Sample.loaded) !! "alice" = Some Sample.aliceData
   /\ Spec.allServed Sample.online w1 w2)
  /\ UserData.walletBalance <$> Db.userDocs (Page.db w2) !! "alice"
     = Some (Some PrimFloat.nan)
  /\ Page.walletBalance (Page.page w2) = 0%float.
Proof.
  cbv zeta.
  assert (Db.userDocs (Page.db Sample.loaded) !! uid Sample.alice
          = Some Sample.aliceData) as Hdoc by (vm_compute; reflexivity).
  split;
    [split; [reflexivity | split; [exact Hdoc | apply online_allServed]]|].
  destruct (reload_after_add_shows_stored_balance Sample.online Sample.alice
              PrimFloat.nan Sample.loaded Sample.aliceData eq_refl Hdoc
              (online_allServed _ _))
    as (Hstored & Hbalance & _).
  change (uid Sample.alice) with "alice" in Hstored.
  rewrite Hstored, Hbalance. split; vm_compute; reflexivity.
Defined.

(** 50 is added to 100 through the dialog. *)
Lemma valid_submit_adds_and_closes_witness :
  (Spec.validAmount "50" = true
   /\ Sample.online (length (Page.requests Sample.dialogOpen)) = false
   /\ Db.userDocs (Page.db Sample.dialogOpen) !! "alice"
      = Some Sample.aliceData)
  /\ let '(r, (m', w')) :=
       Page.submitAddFunds Sample.online (Some Sample.alice)
         (Sample.typed "50", Sample.dialogOpen) in
     m' = AddFundsModal.initial
     /\ Page.walletBalance (Page.page w') = 150%float
     /\ Page.isAddFundsModalOpen (Page.page w') = false.
Proof.
  assert (Spec.validAmount (AddFundsModal.amount (Sample.typed "50")) = true)
    as Hvalid by (vm_compute; reflexivity).
  assert (Db.userDocs (Page.db Sample.dialogOpen) !! uid Sample.alice
          = Some Sample.aliceData) as Hdoc by (vm_compute; reflexivity).
  split; [split; [exact Hvalid | split; [reflexivity | exact Hdoc]]|].
  pose proof (valid_submit_adds_and_closes Sample.online Sample.alice
                (Sample.typed "50") Sample.dialogOpen Sample.aliceData
                Hvalid eq_refl Hdoc) as H.
  cbv zeta in H.
  destruct (Page.submitAddFunds Sample.online (Some Sample.alice)
              (Sample.typed "50", Sample.dialogOpen)) as [r [m' w']].
  destruct H as (_ & Hm & Hbalance & _ & Hflag & _).
  split; [exact Hm|]. split; [|exact Hflag].
  rewrite Hbalance. vm_compute. reflexivity.
Defined.

(** After a rejected submit: type 60, cancel, reopen. *)
Lemma cancel_keeps_amount_and_message_witness :
  let failed :=
    snd (Page.submitAddFunds (Sample.failingAt 8) (Some Sample.alice)
           (Sample.typed "50", Sample.dialogOpen)) in
  let s1 := snd (AddFundsView.handleChange "60" failed) in
  let s2 :=
    snd (AddFundsView.handleCancel (Page.setIsAddFundsModalOpen false) s1) in
  let s3 := snd (AddFundsView.openAddFunds s2) in
  Page.loading (Page.page (snd failed)) = false
  /\ AddFundsView.shown (Some Sample.alice) s2 = None
  /\ AddFundsView.shown (Some Sample.alice) s3
     = Some {| AddFundsView.inputValue := "60";
               AddFundsView.errorLine :=
                 Some "Failed to add funds. Please try again.";
               AddFundsView.submitDisabled := false;
               AddFundsView.submitLabel := "Add Funds" |}.
Proof.
  cbv zeta.
  assert (Page.loading
            (Page.page
               (snd (snd (Page.submitAddFunds (Sample.failingAt 8)
                            (Some Sample.alice)
                            (Sample.typed "50", Sample.dialogOpen)))))
          = false) as Hloaded by (vm_compute; reflexivity).
  split; [exact Hloaded|].
  destruct (snd (Page.submitAddFunds (Sample.failingAt 8) (Some Sample.alice)
                   (Sample.typed "50", Sample.dialogOpen)))
    as [m w] eqn:Hfailed.
  destruct (cancel_keeps_amount_and_message Sample.alice m w "60" Hloaded)
    as (Hclosed & Hshown & _).
  split; [exact Hclosed|]. rewrite Hshown.
  assert (m = {| AddFundsModal.amount := "50";
                 AddFundsModal.isLoading := false;
                 AddFundsModal.error :=
                   "Failed to add funds. Please try again." |}) as ->
    by (vm_compute in Hfailed; congruence).
  reflexivity.
Defined.

(** The logo of a card whose event changes from the Celtics, whose logo the
    server lacks, to the Lakers stays hidden. *)
Example logo_stays_hidden :
  TeamLogo.lifecycle Scenario.assets ["LAL"] = true
  /\ TeamLogo.lifecycle Scenario.assets ["BOS"; "LAL"] = false
  /\ TeamLogo.lifecycle Scenario.assets ["XYZ"; "LAL"] = false.
Proof. repeat split. Qed.
